(** * BNO055 driver: register transport, operating-mode protocol, calibration

    A shallow embedding of [bno055.py].  The driver talks to the chip through
    single-register bus transactions and fixed delays; both are recorded in a
    chronological trace, and the chip is a register file that stores what is
    written to it; bus transactions themselves do not fail.  Python exceptions are values of [exn]; a method of the
    driver is a function from the state before the call to a result and the
    state after it, so the effects performed before an exception are kept. *)

From Stdlib Require Import ZArith List String Ascii Bool Lia DecimalString.
Import ListNotations.
Open Scope string_scope.
Open Scope list_scope.
Open Scope Z_scope.

(** ** Constants of the module *)

Definition CAL_DATA_NAME : string := "BNO055_CALIBRATION_DATA.txt".

Definition _CHIP_ID : Z := 0xa0.

Definition CONFIG_MODE : Z := 0x00.
Definition ACCONLY_MODE : Z := 0x01.
Definition MAGONLY_MODE : Z := 0x02.
Definition GYRONLY_MODE : Z := 0x03.
Definition ACCMAG_MODE : Z := 0x04.
Definition ACCGYRO_MODE : Z := 0x05.
Definition MAGGYRO_MODE : Z := 0x06.
Definition AMG_MODE : Z := 0x07.
Definition IMUPLUS_MODE : Z := 0x08.
Definition COMPASS_MODE : Z := 0x09.
Definition M4G_MODE : Z := 0x0a.
Definition NDOF_FMC_OFF_MODE : Z := 0x0b.
Definition NDOF_MODE : Z := 0x0c.

Definition _POWER_NORMAL : Z := 0x00.
Definition _POWER_LOW : Z := 0x01.
Definition _POWER_SUSPEND : Z := 0x02.

Definition _MODE_REGISTER : Z := 0x3d.
Definition _PAGE_REGISTER : Z := 0x07.
Definition _CALIBRATION_REGISTER : Z := 0x35.
Definition _TRIGGER_REGISTER : Z := 0x3f.
Definition _POWER_REGISTER : Z := 0x3e.
Definition _ID_REGISTER : Z := 0x00.

(** The thirteen operating modes, in the order the module declares them. *)
Definition operating_modes : list Z :=
  [CONFIG_MODE; ACCONLY_MODE; MAGONLY_MODE; GYRONLY_MODE; ACCMAG_MODE;
   ACCGYRO_MODE; MAGGYRO_MODE; AMG_MODE; IMUPLUS_MODE; COMPASS_MODE;
   M4G_MODE; NDOF_FMC_OFF_MODE; NDOF_MODE].

(** ** Exceptions, bus events and the state *)

(** The builtin exceptions the driver raises or runs into.  The design
    document names them by role: [RuntimeError] is its DeviceIdentityError,
    [ValueError] its NotCalibratedError, InvalidCalibrationLength and
    MalformedCalibrationFile (told apart by the message),
    [NotImplementedError] its UnsupportedOperation, [OSError] its BusError. *)
Inductive exn : Type :=
| RuntimeError (chip_id expected : Z)
| ValueError (msg : string)
| NotImplementedError
| TypeError (msg : string)
| NameError (name : string)
| AttributeError (name : string)
| StructError
| FileNotFoundError (path : string)
| OSError.

(** What the driver does to the outside world, in the order it does it.
    Delays are in milliseconds ([time.sleep(0.02)] is [Sleep 20]). *)
Inductive event : Type :=
| BusWrite (register value : Z)
| BusRead (register : Z)
| BusWriteBlock (address : Z) (data : list Z)
| BusReadBlock (address : Z) (length : Z)
| Sleep (ms : Z).

(** [regs] is the chip's register file, [buffer] the two-byte scratch
    [bytearray] of the driver object, [trace] the bus log. *)
Record state : Type := mkState {
  regs : Z -> Z;
  buffer : Z * Z;
  trace : list event
}.

Inductive result (A : Type) : Type :=
| Ok (a : A)
| Raise (e : exn).
Arguments Ok {A} a.
Arguments Raise {A} e.

Definition M (A : Type) : Type := state -> result A * state.

Definition ret {A} (a : A) : M A := fun st => (Ok a, st).

Definition raise {A} (e : exn) : M A := fun st => (Raise e, st).

Definition bind {A B} (m : M A) (k : A -> M B) : M B :=
  fun st =>
    match m st with
    | (Ok a, st') => k a st'
    | (Raise e, st') => (Raise e, st')
    end.

Declare Scope py_scope.
Delimit Scope py_scope with py.
Notation "x <- m ;; k" := (bind m (fun x => k))
  (at level 100, m at next level, right associativity) : py_scope.
Notation "m ;; k" := (bind m (fun _ => k))
  (at level 100, right associativity) : py_scope.
Open Scope py_scope.

(** [try: body  except OSError: pass]; [FileNotFoundError] is a subclass of
    [OSError]. *)
Definition try_except_OSError (body : M unit) : M unit :=
  fun st =>
    match body st with
    | (Raise OSError, st') => (Ok tt, st')
    | (Raise (FileNotFoundError _), st') => (Ok tt, st')
    | other => other
    end.

(** [for item in items: body(item)] *)
Fixpoint for_each {A} (items : list A) (body : A -> M unit) : M unit :=
  match items with
  | [] => ret tt
  | item :: rest => body item ;; for_each rest body
  end.

(** [time.sleep] *)
Definition sleep (ms : Z) : M unit :=
  fun st => (Ok tt, mkState (regs st) (buffer st) (trace st ++ [Sleep ms])).

(** Item assignment into the [bytearray]: only 0..255 is storable. *)
Definition is_byte (v : Z) : bool := (0 <=? v) && (v <? 256).

Definition buffer_set (index : nat) (v : Z) : M unit :=
  fun st =>
    if is_byte v then
      let b := match index with
               | O => (v, snd (buffer st))
               | _ => (fst (buffer st), v)
               end in
      (Ok tt, mkState (regs st) b (trace st))
    else (Raise (ValueError "byte must be in range(0, 256)"), st).

Definition update (f : Z -> Z) (a v : Z) : Z -> Z :=
  fun r => if r =? a then v else f r.

(** [i2c.write(self.buffer)]: the register named by the first byte takes the
    second. *)
Definition i2c_write_buffer : M unit :=
  fun st =>
    let '(r, v) := buffer st in
    (Ok tt, mkState (update (regs st) r v) (buffer st)
                    (trace st ++ [BusWrite r v])).

(** [i2c.write_then_readinto(buffer, buffer, out_end=1, in_start=1)]: the
    register named by the first byte is read into the second. *)
Definition i2c_write_then_readinto : M unit :=
  fun st =>
    let r := fst (buffer st) in
    (Ok tt, mkState (regs st) (r, regs st r) (trace st ++ [BusRead r])).

(** Python attribute protocol for [property] objects. *)
Record property (A V : Type) : Type := mkProperty {
  fget : M A;
  fset : option (V -> M unit)
}.
Arguments mkProperty {A V} fget fset.
Arguments fget {A V} p.
Arguments fset {A V} p.

Definition readonly_property {A V} (getter : M A) : property A V :=
  mkProperty getter None.

(** [@p.setter]: a new property with the getter of [p] and the given setter. *)
Definition setter {A V} (p : property A V) (f : V -> M unit) : property A V :=
  mkProperty (fget p) (Some f).

Definition getattr {A V} (p : property A V) : M A := fget p.

Definition setattr {A V} (p : property A V) (value : V) : M unit :=
  match fset p with
  | Some f => f value
  | None => raise (AttributeError "can't set attribute")
  end.

(** Calling the result of an attribute read whose value is an [int]. *)
Definition call_int {A} (callee : Z) (args : list Z) : M A :=
  raise (TypeError "'int' object is not callable").

(** Calling a function that declares [parameter] after [self] with [self]
    alone, as reading a property does with its getter: the call fails on the
    missing argument and the body does not run. *)
Definition call_with_self_only {P A} (name parameter : string)
  (body : P -> M A) : M A :=
  raise (TypeError (name ++ "() missing 1 required positional argument: '"
                         ++ parameter ++ "'")%string).

(** An attribute read on the driver object.  [__init__] sets [i2c_device] and
    [buffer] and nothing else; the class defines no [__getattr__]. *)
Definition instance_attributes : list string := ["i2c_device"; "buffer"].

Definition self_attribute (name : string) : M unit :=
  if existsb (String.eqb name) instance_attributes then ret tt
  else raise (AttributeError name).

(** [length] consecutive register addresses from [address] on. *)
Definition addresses (address : Z) (length : nat) : list Z :=
  map (fun i => address + Z.of_nat i) (seq 0 length).

(** Modelled from the spec: the block read of the register transport
    (section 4.1, [read_block]), which the bus library provides and the
    repository does not contain: one transaction over consecutive
    registers. *)
Definition read_block (address : Z) (length : Z) : M (list Z) :=
  fun st =>
    (Ok (map (regs st) (addresses address (Z.to_nat length))),
     mkState (regs st) (buffer st) (trace st ++ [BusReadBlock address length])).

Fixpoint update_block (f : Z -> Z) (address : Z) (data : list Z) : Z -> Z :=
  match data with
  | [] => f
  | v :: rest => update_block (update f address v) (address + 1) rest
  end.

(** Modelled from the spec: the block write of the register transport
    (section 4.1, [write_block]), the counterpart of [read_block]. *)
Definition write_block (address : Z) (data : list Z) : M unit :=
  fun st =>
    (Ok tt, mkState (update_block (regs st) address data) (buffer st)
                    (trace st ++ [BusWriteBlock address data])).

(** ** Text files *)

Definition filesystem : Type := string -> option string.

(** An open text file: [f.read()] returns what is left and leaves nothing. *)
Record text_file : Type := mkFile {
  content : string;
  exhausted : bool
}.

Definition file_read (f : text_file) : string * text_file :=
  ((if exhausted f then "" else content f), mkFile (content f) true).

Definition newline : ascii := "010"%char.

(** [open(path, 'wb')]: the file is created, or emptied if it exists.  The
    host is taken to allow it. *)
Definition open_wb (fs : filesystem) (path : string) : filesystem :=
  fun p => if String.eqb p path then Some EmptyString else fs p.

(** ["%s\n" % item] for an integer [item]. *)
Definition percent_s_newline (item : Z) : string :=
  (NilZero.string_of_int (Z.to_int item) ++ String newline EmptyString)%string.


(** [f.write(text)] with a [str] on a file opened in binary mode: nothing
    reaches the file. *)
Definition binary_write_str (text : string) : M unit :=
  raise (TypeError "a bytes-like object is required, not 'str'").

(** [s.split(sep)] for a one-character separator: never empty, one more piece
    than there are separators. *)
Fixpoint split (sep : ascii) (s : string) : list string :=
  match s with
  | EmptyString => [EmptyString]
  | String c s' =>
      if Ascii.eqb c sep then EmptyString :: split sep s'
      else match split sep s' with
           | [] => [String c EmptyString]
           | piece :: pieces => String c piece :: pieces
           end
  end.

(** The number of lines of a text, as a text file has them: every newline
    ends a line, and characters after the last newline form one more. *)
Fixpoint line_count (s : string) : nat :=
  match s with
  | EmptyString => O
  | String c s' =>
      if Ascii.eqb c newline then S (line_count s')
      else match s' with
           | EmptyString => 1%nat
           | _ => line_count s'
           end
  end.

(** ** Register structs *)

(** The driver multiplies raw integers by floating-point scales.  The
    arithmetic of floats is left abstract: [truediv a b] is the float [a / b]
    of two integers, [fmul_int x v] the float [x * v] of a float and an
    integer. *)
Class FloatOps (F : Type) : Type := {
  truediv : Z -> Z -> F;
  fmul_int : F -> Z -> F
}.

Definition signed (bits : Z) (u : Z) : Z :=
  if u <? 2 ^ (bits - 1) then u else u - 2 ^ bits.

Definition strip_byte_order (fmt : string) : string :=
  match fmt with
  | String "<"%char codes => codes
  | _ => fmt
  end.

(** [struct.calcsize] for the two codes the driver uses: ['h'] is a 16-bit
    and ['b'] an 8-bit signed integer. *)
Fixpoint calcsize_codes (codes : string) : option Z :=
  match codes with
  | EmptyString => Some 0
  | String c rest =>
      match calcsize_codes rest with
      | None => None
      | Some n =>
          if Ascii.eqb c "h" then Some (2 + n)
          else if Ascii.eqb c "b" then Some (1 + n)
          else None
      end
  end.

(** [struct.unpack_from], little-endian. *)
Fixpoint unpack_codes (codes : string) (bytes : list Z) : option (list Z) :=
  match codes with
  | EmptyString => Some []
  | String c rest =>
      if Ascii.eqb c "h" then
        match bytes with
        | lo :: hi :: bytes' =>
            option_map (cons (signed 16 (lo + 256 * hi)))
                       (unpack_codes rest bytes')
        | _ => None
        end
      else if Ascii.eqb c "b" then
        match bytes with
        | b :: bytes' =>
            option_map (cons (signed 8 b)) (unpack_codes rest bytes')
        | _ => None
        end
      else None
  end.

(** Modelled from the spec: [Struct.__get__] of the register library, which
    is not part of the repository.  One block read of [calcsize] bytes at the
    register address, decoded by the format (section 4.2: a multi-field
    little-endian signed-integer layout at a base address). *)
Definition Struct__get__ (register_address : Z) (struct_format : string)
  : M (list Z) :=
  let codes := strip_byte_order struct_format in
  match calcsize_codes codes with
  | None => raise StructError
  | Some size =>
      bytes <- read_block register_address size ;;
      match unpack_codes codes bytes with
      | Some values => ret values
      | None => raise StructError
      end
  end.

(** Modelled from the spec: [UnaryStruct.__get__] of the register library,
    the single-field variant (section 4.2: a single signed byte, returned
    without scaling). *)
Definition UnaryStruct__get__ (register_address : Z) (struct_format : string)
  : M Z :=
  values <- Struct__get__ register_address struct_format ;;
  match values with
  | v :: _ => ret v
  | [] => raise StructError
  end.

Section Descriptors.

Context {F : Type} {float_ops : FloatOps F}.

(** The two descriptor classes of the module, with the arguments of their
    constructors. *)
Inductive descriptor : Type :=
| _ScaledReadOnlyStruct (register_address : Z) (struct_format : string)
                        (scale : F)
| _ReadOnlyUnaryStruct (register_address : Z) (struct_format : string).

(** What reading a descriptor gives: a tuple of floats or one integer. *)
Inductive reading : Type :=
| Tuple (values : list F)
| Scalar (value : Z).

Definition __get__ (d : descriptor) : M reading :=
  match d with
  | _ScaledReadOnlyStruct register_address struct_format scale =>
      result <- Struct__get__ register_address struct_format ;;
      ret (Tuple (map (fun v => fmul_int scale v) result))
  | _ReadOnlyUnaryStruct register_address struct_format =>
      v <- UnaryStruct__get__ register_address struct_format ;;
      ret (Scalar v)
  end.

Definition __set__ {V : Type} (d : descriptor) (value : V) : M unit :=
  match d with
  | _ScaledReadOnlyStruct _ _ _ => raise NotImplementedError
  | _ReadOnlyUnaryStruct _ _ => raise NotImplementedError
  end.

Definition descriptor_address (d : descriptor) : Z :=
  match d with
  | _ScaledReadOnlyStruct a _ _ => a
  | _ReadOnlyUnaryStruct a _ => a
  end.

Definition descriptor_format (d : descriptor) : string :=
  match d with
  | _ScaledReadOnlyStruct _ f _ => f
  | _ReadOnlyUnaryStruct _ f => f
  end.

Definition descriptor_scale (d : descriptor) : option F :=
  match d with
  | _ScaledReadOnlyStruct _ _ s => Some s
  | _ReadOnlyUnaryStruct _ _ => None
  end.

End Descriptors.

Arguments descriptor F : clear implicits.
Arguments reading F : clear implicits.

(** ** The driver class *)

Module BNO055.

Section ClassAttributes.

Context {F : Type} {float_ops : FloatOps F}.

Definition temperature : descriptor F := _ReadOnlyUnaryStruct 0x34 "b".
Definition accelerometer : descriptor F :=
  _ScaledReadOnlyStruct 0x08 "<hhh" (truediv 1 100).
Definition acceleration : descriptor F :=
  _ScaledReadOnlyStruct 0x08 "<hhh" (truediv 1 100).
Definition magnetometer : descriptor F :=
  _ScaledReadOnlyStruct 0x0e "<hhh" (truediv 1 16).
Definition magnetic : descriptor F :=
  _ScaledReadOnlyStruct 0x0e "<hhh" (truediv 1 16).
Definition gyroscope : descriptor F :=
  _ScaledReadOnlyStruct 0x14 "<hhh" (truediv 1 16).
Definition euler : descriptor F :=
  _ScaledReadOnlyStruct 0x1a "<hhh" (truediv 1 16).
Definition quaternion : descriptor F :=
  _ScaledReadOnlyStruct 0x20 "<hhhh" (truediv 1 (Z.shiftl 1 14)).
Definition linear_acceleration : descriptor F :=
  _ScaledReadOnlyStruct 0x28 "<hhh" (truediv 1 100).
Definition gravity : descriptor F :=
  _ScaledReadOnlyStruct 0x2e "<hhh" (truediv 1 100).

End ClassAttributes.

Definition _write_register (register value : Z) : M unit :=
  buffer_set 0 register ;;
  buffer_set 1 value ;;
  i2c_write_buffer.

Definition _write_bytes (address : Z) (data : list Z) : M unit :=
  self_attribute "i2c_device" ;;
  write_block address data.

Definition _read_register (register : Z) : M Z :=
  buffer_set 0 register ;;
  i2c_write_then_readinto ;;
  fun st => (Ok (snd (buffer st)), st).

Definition _read_bytes (address : Z) (length : Z) : M (list Z) :=
  self_attribute "_i2c_device" ;;
  read_block address length.

Definition mode_getter : M Z := _read_register _MODE_REGISTER.

Definition mode_setter (new_mode : Z) : M unit :=
  _write_register _MODE_REGISTER CONFIG_MODE ;;
  sleep 20 ;;
  if negb (new_mode =? CONFIG_MODE) then
    _write_register _MODE_REGISTER new_mode ;;
    sleep 10
  else ret tt.

Definition mode : property Z Z :=
  setter (readonly_property mode_getter) mode_setter.

Definition _reset : M unit :=
  setattr mode CONFIG_MODE ;;
  try_except_OSError (_write_register _TRIGGER_REGISTER 0x20) ;;
  sleep 700.

(** The constructor.  Building the bus-device handle is the transport's
    business and touches no register of the chip. *)
Definition __init__ : M unit :=
  (fun st => (Ok tt, mkState (regs st) (0, 0) (trace st))) ;;
  chip_id <- _read_register _ID_REGISTER ;;
  if negb (chip_id =? _CHIP_ID) then raise (RuntimeError chip_id _CHIP_ID)
  else
    _reset ;;
    _write_register _POWER_REGISTER _POWER_NORMAL ;;
    _write_register _PAGE_REGISTER 0x00 ;;
    _write_register _TRIGGER_REGISTER 0x00 ;;
    sleep 10 ;;
    setattr mode NDOF_MODE ;;
    sleep 10.

Definition calibration_status_getter : M (Z * Z * Z * Z) :=
  calibration_data <- _read_register _CALIBRATION_REGISTER ;;
  let sys := Z.land (Z.shiftr calibration_data 6) 0x03 in
  let gyro := Z.land (Z.shiftr calibration_data 4) 0x03 in
  let accel := Z.land (Z.shiftr calibration_data 2) 0x03 in
  let mag := Z.land calibration_data 0x03 in
  ret (sys, gyro, accel, mag).

Definition calibration_status : property (Z * Z * Z * Z) unit :=
  readonly_property calibration_status_getter.

Definition calibrated_getter : M bool :=
  status <- getattr calibration_status ;;
  let '(sys, gyro, accel, mag) := status in
  ret ((sys =? gyro) && (gyro =? accel) && (accel =? mag) && (mag =? 0x03)).

Definition calibrated : property bool unit :=
  readonly_property calibrated_getter.

(** The bodies of the four calibration functions.  [self.mode(...)] reads the
    [mode] property and calls what it returns.  The class declares each of
    the four under [@property]; the members as declared follow the bodies
    ([get_calibration_property] and the like). *)
Definition get_calibration : M (list Z) :=
  is_calibrated <- getattr calibrated ;;
  if negb is_calibrated then raise (ValueError "Device not yet calibrated!")
  else
    callee <- getattr mode ;;
    call_int (A := unit) callee [CONFIG_MODE] ;;
    data <- _read_bytes 0x55 22 ;;
    callee <- getattr mode ;;
    call_int (A := unit) callee [NDOF_MODE] ;;
    ret data.

Definition set_calibration (data : option (list Z)) : M unit :=
  match data with
  | None =>
      raise (ValueError "Expected a list of 22 bytes of calibration data!")
  | Some bytes =>
      if negb (Nat.eqb (List.length bytes) 22) then
        raise (ValueError "Expected a list of 22 bytes of calibration data!")
      else
        callee <- getattr mode ;;
        call_int (A := unit) callee [CONFIG_MODE] ;;
        _write_bytes 0x55 bytes ;;
        callee <- getattr mode ;;
        call_int (A := unit) callee [NDOF_MODE]
  end.

(** The members the class declares for them.  A property without a setter
    calls its getter with the object alone, so a getter that declares a
    further parameter fails on every read. *)
Definition get_calibration_property : property (list Z) unit :=
  readonly_property get_calibration.

Definition set_calibration_property : property unit (option (list Z)) :=
  readonly_property
    (call_with_self_only "set_calibration" "data" set_calibration).

Section Files.

(** The directory of the module file and the files of the host. *)
Variable CAL_DATA_PATH : string.
Variable fs : filesystem.

Definition load_calibration (fpath : string) : M (list Z) :=
  let data := repeat 0 22 in
  match fs (CAL_DATA_PATH ++ CAL_DATA_NAME)%string with
  | None => raise (FileNotFoundError (CAL_DATA_PATH ++ CAL_DATA_NAME)%string)
  | Some text =>
      let f := mkFile text false in
      let '(first_read, f) := file_read f in
      if negb (Nat.eqb (List.length (split newline first_read)) 22) then
        raise (ValueError "Expected a list of 22 bytes of calibration data!")
      else
        let '(second_read, f) := file_read f in
        for_each (split newline second_read)
                 (fun item => raise (NameError "byte")) ;;
        ret data
  end.

(** The result comes with the files of the host after the call. *)
Definition save_calibration (fpath : string)
  : state -> result unit * state * filesystem :=
  fun st =>
    let files := open_wb fs (CAL_DATA_PATH ++ CAL_DATA_NAME)%string in
    ((items <- get_calibration ;;
      for_each items (fun item => binary_write_str (percent_s_newline item)))
       st,
     files).

Definition load_calibration_property : property (list Z) unit :=
  readonly_property
    (call_with_self_only "load_calibration" "fpath" load_calibration).

Definition save_calibration_property : property unit unit :=
  readonly_property
    (call_with_self_only "save_calibration" "fpath"
       (fun fpath st => fst (save_calibration fpath st))).

End Files.

Definition external_crystal_getter : M bool :=
  last_mode <- getattr mode ;;
  setattr mode CONFIG_MODE ;;
  _write_register _PAGE_REGISTER 0x00 ;;
  value <- _read_register _TRIGGER_REGISTER ;;
  setattr mode last_mode ;;
  ret (value =? 0x80).

Definition external_crystal : property bool bool :=
  readonly_property external_crystal_getter.

Definition use_external_crystal_setter (value : bool) : M unit :=
  last_mode <- getattr mode ;;
  setattr mode CONFIG_MODE ;;
  _write_register _PAGE_REGISTER 0x00 ;;
  _write_register _TRIGGER_REGISTER (if value then 0x80 else 0x00) ;;
  setattr mode last_mode ;;
  sleep 10.

Definition use_external_crystal : property bool bool :=
  setter external_crystal use_external_crystal_setter.

End BNO055.

(** ** Observations on traces and example chips *)

Definition is_register_write (e : event) : bool :=
  match e with
  | BusWrite _ _ | BusWriteBlock _ _ => true
  | _ => false
  end.

(** The register writes of a trace, oldest first. *)
Definition register_writes (evs : list event) : list event :=
  filter is_register_write evs.

(** [x] is the two-bit field of [d] whose low bit is bit [lo]. *)
Definition two_bit_field (d lo x : Z) : Prop :=
  0 <= x < 4 /\
  Z.testbit x 0 = Z.testbit d lo /\
  Z.testbit x 1 = Z.testbit d (lo + 1).

(** The length of what is handed to [set_calibration], if it has one. *)
Definition data_length (data : option (list Z)) : option nat :=
  option_map (@List.length Z) data.

(** A chip just after power-on, given what four of its registers hold. *)
Definition chip (id mode_reg calibration trigger : Z) : state :=
  mkState
    (fun r =>
       if r =? _ID_REGISTER then id
       else if r =? _MODE_REGISTER then mode_reg
       else if r =? _CALIBRATION_REGISTER then calibration
       else if r =? _TRIGGER_REGISTER then trigger
       else 0)
    (0, 0) [].

(** Text-file helpers for the examples: a line with its newline, and [n]
    copies of a string. *)
Definition text_line (s : string) : string :=
  (s ++ String newline EmptyString)%string.

Fixpoint repeat_string (n : nat) (s : string) : string :=
  match n with
  | O => EmptyString
  | S n' => (s ++ repeat_string n' s)%string
  end.

Fixpoint ends_with_newline (s : string) : bool :=
  match s with
  | EmptyString => false
  | String c EmptyString => Ascii.eqb c newline
  | String _ s' => ends_with_newline s'
  end.

(** A host on which every path holds the same text. *)
Definition every_file (text : string) : filesystem := fun _ => Some text.

(** ** Equations of the monad and of the register primitives *)

Lemma bind_ok {A B} (m : M A) (k : A -> M B) st a st' :
  m st = (Ok a, st') -> bind m k st = k a st'.
Proof. intros H. unfold bind. rewrite H. reflexivity. Qed.

Lemma bind_raise {A B} (m : M A) (k : A -> M B) st e st' :
  m st = (Raise e, st') -> bind m k st = (Raise e, st').
Proof. intros H. unfold bind. rewrite H. reflexivity. Qed.

Lemma is_byte_iff v : is_byte v = true <-> 0 <= v < 256.
Proof. unfold is_byte. rewrite andb_true_iff, Z.leb_le, Z.ltb_lt. tauto. Qed.

Lemma operating_modes_are_bytes m : In m operating_modes -> is_byte m = true.
Proof.
  unfold operating_modes. simpl. intros H.
  repeat (destruct H as [<- | H]; [reflexivity |]). contradiction.
Qed.

Lemma write_register_eq register value st :
  is_byte register = true -> is_byte value = true ->
  BNO055._write_register register value st =
  (Ok tt, mkState (update (regs st) register value) (register, value)
                  (trace st ++ [BusWrite register value])).
Proof.
  intros Hr Hv. unfold BNO055._write_register, bind, buffer_set.
  rewrite Hr. cbn. rewrite Hv. reflexivity.
Qed.

Lemma read_register_eq register st :
  is_byte register = true ->
  BNO055._read_register register st =
  (Ok (regs st register),
   mkState (regs st) (register, regs st register)
           (trace st ++ [BusRead register])).
Proof.
  intros Hr. unfold BNO055._read_register, bind, buffer_set.
  rewrite Hr. reflexivity.
Qed.

Lemma sleep_eq ms st :
  sleep ms st = (Ok tt, mkState (regs st) (buffer st) (trace st ++ [Sleep ms])).
Proof. reflexivity. Qed.

Lemma update_same f a v : update f a v a = v.
Proof. unfold update. rewrite Z.eqb_refl. reflexivity. Qed.

Lemma update_other f a v r : r <> a -> update f a v r = f r.
Proof. intros H. unfold update. apply Z.eqb_neq in H. rewrite H. reflexivity. Qed.

(** Reading [self.mode] is one read of the mode register. *)
Lemma mode_getter_eq st :
  getattr BNO055.mode st =
  (Ok (regs st _MODE_REGISTER),
   mkState (regs st) (_MODE_REGISTER, regs st _MODE_REGISTER)
           (trace st ++ [BusRead _MODE_REGISTER])).
Proof.
  unfold getattr. cbn [BNO055.mode setter readonly_property fget].
  unfold BNO055.mode_getter. apply read_register_eq. reflexivity.
Qed.

(** What [self.mode = new_mode] does for a storable [new_mode]: the events,
    and the registers afterwards. *)
Lemma mode_setter_eq new_mode st :
  is_byte new_mode = true ->
  exists st',
    setattr BNO055.mode new_mode st = (Ok tt, st') /\
    trace st' =
      trace st ++ [BusWrite _MODE_REGISTER CONFIG_MODE; Sleep 20] ++
      (if new_mode =? CONFIG_MODE then []
       else [BusWrite _MODE_REGISTER new_mode; Sleep 10]) /\
    (forall r, regs st' r =
               if r =? _MODE_REGISTER then new_mode else regs st r).
Proof.
  intros Hb. unfold setattr. cbn [BNO055.mode setter fset].
  unfold BNO055.mode_setter.
  erewrite bind_ok by (apply write_register_eq; reflexivity).
  erewrite bind_ok by apply sleep_eq.
  destruct (new_mode =? CONFIG_MODE) eqn:E; cbn [negb].
  - apply Z.eqb_eq in E. subst new_mode. eexists. split; [reflexivity |].
    cbn [trace regs]. split.
    + rewrite <- app_assoc. reflexivity.
    + intros r. unfold update. reflexivity.
  - erewrite bind_ok by (apply write_register_eq; [reflexivity | exact Hb]).
    rewrite sleep_eq. eexists. split; [reflexivity |].
    cbn [trace regs]. split.
    + repeat rewrite <- app_assoc. reflexivity.
    + intros r. unfold update. destruct (r =? _MODE_REGISTER); reflexivity.
Qed.

(** ** The definitions at work *)

Example split_two_lines :
  split newline (text_line "12" ++ "7")%string = ["12"; "7"].
Proof. reflexivity. Qed.

Example split_trailing_newline :
  split newline (text_line "12" ++ text_line "7")%string = ["12"; "7"; ""].
Proof. reflexivity. Qed.

Example line_count_trailing_newline :
  line_count (text_line "12" ++ text_line "7")%string = 2%nat /\
  line_count (text_line "12" ++ "7")%string = 2%nat /\
  line_count "" = 0%nat.
Proof. repeat split. Qed.

Example unpack_three_fields :
  unpack_codes (strip_byte_order "<hhh") [0x10; 0x00; 0xff; 0xff; 0x00; 0x80] =
  Some [16; -1; -32768].
Proof. reflexivity. Qed.

Example file_read_twice :
  let '(first, f) := file_read (mkFile "abc" false) in
  let '(second, _) := file_read f in
  (first, second) = ("abc", "").
Proof. reflexivity. Qed.

(** A chip that identifies itself is reset, powered and left in NDOF. *)
Example init_good_chip :
  fst (BNO055.__init__ (chip 0xa0 CONFIG_MODE 0 0)) = Ok tt /\
  trace (snd (BNO055.__init__ (chip 0xa0 CONFIG_MODE 0 0))) =
    [BusRead _ID_REGISTER;
     BusWrite _MODE_REGISTER CONFIG_MODE; Sleep 20;
     BusWrite _TRIGGER_REGISTER 0x20; Sleep 700;
     BusWrite _POWER_REGISTER _POWER_NORMAL;
     BusWrite _PAGE_REGISTER 0x00;
     BusWrite _TRIGGER_REGISTER 0x00; Sleep 10;
     BusWrite _MODE_REGISTER CONFIG_MODE; Sleep 20;
     BusWrite _MODE_REGISTER NDOF_MODE; Sleep 10;
     Sleep 10] /\
  regs (snd (BNO055.__init__ (chip 0xa0 CONFIG_MODE 0 0))) _MODE_REGISTER =
    NDOF_MODE.
Proof. repeat split. Qed.

(** A mode outside the byte range gets as far as the CONFIG write. *)
Example mode_setter_out_of_range :
  fst (setattr BNO055.mode 300 (chip 0xa0 NDOF_MODE 0 0)) =
    Raise (ValueError "byte must be in range(0, 256)") /\
  trace (snd (setattr BNO055.mode 300 (chip 0xa0 NDOF_MODE 0 0))) =
    [BusWrite _MODE_REGISTER CONFIG_MODE; Sleep 20].
Proof. repeat split. Qed.

(** Only [use_external_crystal] has a setter. *)
Example external_crystal_has_no_setter : forall value st,
  setattr BNO055.external_crystal value st =
  (Raise (AttributeError "can't set attribute"), st).
Proof. reflexivity. Qed.

(** ** The mode setter *)

(** C1. For every target mode M the mode setter succeeds and its bus
    activity is: write CONFIG to the mode register, wait 20 ms, and, only
    when M is not CONFIG, write M and wait 10 ms.  Whatever the registers
    held before (so also when M is the active mode), the mode register is
    written once for CONFIG and twice otherwise. *)
Theorem mode_setter_protocol : forall M st,
  In M operating_modes ->
  fst (setattr BNO055.mode M st) = Ok tt /\
  trace (snd (setattr BNO055.mode M st)) =
    trace st ++ [BusWrite _MODE_REGISTER CONFIG_MODE; Sleep 20] ++
    (if M =? CONFIG_MODE then []
     else [BusWrite _MODE_REGISTER M; Sleep 10]) /\
  (M = CONFIG_MODE ->
   register_writes (trace (snd (setattr BNO055.mode M st))) =
     register_writes (trace st) ++ [BusWrite _MODE_REGISTER CONFIG_MODE]).
Proof.
  intros M st HM.
  destruct (mode_setter_eq M st (operating_modes_are_bytes M HM))
    as (st' & Hrun & Htrace & _).
  rewrite Hrun. cbn [fst snd]. split; [reflexivity |]. split; [exact Htrace |].
  intros ->. rewrite Htrace. unfold register_writes.
  rewrite filter_app. reflexivity.
Qed.

Lemma mode_setter_protocol_witness :
  In NDOF_MODE operating_modes /\
  trace (snd (setattr BNO055.mode NDOF_MODE (chip 0xa0 NDOF_MODE 0xff 0))) =
    [BusWrite _MODE_REGISTER CONFIG_MODE; Sleep 20;
     BusWrite _MODE_REGISTER NDOF_MODE; Sleep 10].
Proof.
  assert (H : In NDOF_MODE operating_modes) by (vm_compute; tauto).
  split; [exact H |].
  exact (proj1 (proj2 (mode_setter_protocol NDOF_MODE
                         (chip 0xa0 NDOF_MODE 0xff 0) H))).
Defined.

(** ** Construction *)

(** C2. When the identity register holds anything but 0xA0, the constructor
    raises [RuntimeError] (the identity error) after a single read of the
    identity register: the trace gains no register write, in particular none
    to the mode or power register, and the registers are as before. *)
Theorem init_rejects_bad_chip_id : forall st,
  regs st _ID_REGISTER <> _CHIP_ID ->
  fst (BNO055.__init__ st) =
    Raise (RuntimeError (regs st _ID_REGISTER) _CHIP_ID) /\
  trace (snd (BNO055.__init__ st)) = trace st ++ [BusRead _ID_REGISTER] /\
  register_writes (trace (snd (BNO055.__init__ st))) =
    register_writes (trace st) /\
  regs (snd (BNO055.__init__ st)) = regs st.
Proof.
  intros st Hid. unfold BNO055.__init__.
  erewrite bind_ok by reflexivity.
  erewrite bind_ok by (apply read_register_eq; reflexivity).
  cbn [regs]. apply Z.eqb_neq in Hid. rewrite Hid. cbn [negb].
  unfold raise. cbn [fst snd trace regs]. repeat split.
  unfold register_writes. rewrite filter_app. cbn. apply app_nil_r.
Qed.

Lemma init_rejects_bad_chip_id_witness :
  regs (chip 0x00 CONFIG_MODE 0 0) _ID_REGISTER <> _CHIP_ID /\
  fst (BNO055.__init__ (chip 0x00 CONFIG_MODE 0 0)) =
    Raise (RuntimeError 0x00 0xa0).
Proof.
  assert (H : regs (chip 0x00 CONFIG_MODE 0 0) _ID_REGISTER <> _CHIP_ID)
    by (vm_compute; discriminate).
  split; [exact H |].
  exact (proj1 (init_rejects_bad_chip_id (chip 0x00 CONFIG_MODE 0 0) H)).
Defined.

(** ** Calibration status *)

Lemma calibration_status_eq st :
  getattr BNO055.calibration_status st =
  (let d := regs st _CALIBRATION_REGISTER in
   (Ok (Z.land (Z.shiftr d 6) 3, Z.land (Z.shiftr d 4) 3,
        Z.land (Z.shiftr d 2) 3, Z.land d 3),
    mkState (regs st) (_CALIBRATION_REGISTER, d)
            (trace st ++ [BusRead _CALIBRATION_REGISTER]))).
Proof.
  unfold getattr. cbn [BNO055.calibration_status readonly_property fget].
  unfold BNO055.calibration_status_getter.
  erewrite bind_ok by (apply read_register_eq; reflexivity).
  reflexivity.
Qed.

Lemma land_3_range x : 0 <= Z.land x 3 < 4.
Proof.
  change 3 with (Z.ones 2). rewrite Z.land_ones by lia.
  apply Z.mod_pos_bound. reflexivity.
Qed.

Lemma field_of_shift d lo :
  0 <= lo -> two_bit_field d lo (Z.land (Z.shiftr d lo) 3).
Proof.
  intros Hlo. unfold two_bit_field. split; [apply land_3_range |].
  split.
  - rewrite Z.land_spec, Z.shiftr_spec by lia.
    change (Z.testbit 3 0) with true. rewrite andb_true_r.
    f_equal; lia.
  - rewrite Z.land_spec, Z.shiftr_spec by lia.
    change (Z.testbit 3 1) with true. rewrite andb_true_r.
    f_equal; lia.
Qed.

(** Python's chained [sys == gyro == accel == mag == 0x03]. *)
Lemma chained_equal_3 s g a m :
  (s =? g) && (g =? a) && (a =? m) && (m =? 3) =
  (s =? 3) && (g =? 3) && (a =? 3) && (m =? 3).
Proof.
  destruct (Z.eqb_spec s g), (Z.eqb_spec g a), (Z.eqb_spec a m),
    (Z.eqb_spec m 3), (Z.eqb_spec s 3), (Z.eqb_spec g 3), (Z.eqb_spec a 3);
    cbn; try reflexivity; lia.
Qed.

(** The property [calibrated] reads the status once and compares. *)
Lemma calibrated_eq st :
  getattr BNO055.calibrated st =
  (match fst (getattr BNO055.calibration_status st) with
   | Ok (sys, gyro, accel, mag) =>
       Ok ((sys =? 3) && (gyro =? 3) && (accel =? 3) && (mag =? 3))
   | Raise e => Raise e
   end,
   snd (getattr BNO055.calibration_status st)).
Proof.
  unfold getattr at 1. cbn [BNO055.calibrated readonly_property fget].
  unfold BNO055.calibrated_getter, bind.
  rewrite calibration_status_eq. cbn [fst snd]. unfold ret.
  rewrite chained_equal_3. reflexivity.
Qed.

(** [get_calibration] up to its first branch: one read of the status
    register, then either the calibration error or the body. *)
Lemma get_calibration_not_calibrated st :
  fst (getattr BNO055.calibration_status st) <> Ok (3, 3, 3, 3) ->
  BNO055.get_calibration st =
  (Raise (ValueError "Device not yet calibrated!"),
   snd (getattr BNO055.calibration_status st)).
Proof.
  intros H. unfold BNO055.get_calibration, bind. rewrite calibrated_eq.
  rewrite calibration_status_eq in *. cbn [fst snd] in *.
  set (d := regs st _CALIBRATION_REGISTER) in *. cbv zeta in *.
  destruct (Z.eqb_spec (Z.land (Z.shiftr d 6) 3) 3) as [Es | Es];
    [| reflexivity].
  destruct (Z.eqb_spec (Z.land (Z.shiftr d 4) 3) 3) as [Eg | Eg];
    [| reflexivity].
  destruct (Z.eqb_spec (Z.land (Z.shiftr d 2) 3) 3) as [Ea | Ea];
    [| reflexivity].
  destruct (Z.eqb_spec (Z.land d 3) 3) as [Em | Em]; [| reflexivity].
  exfalso. apply H. rewrite Es, Eg, Ea, Em. reflexivity.
Qed.

Lemma get_calibration_calibrated st :
  fst (getattr BNO055.calibration_status st) = Ok (3, 3, 3, 3) ->
  BNO055.get_calibration st =
  (Raise (TypeError "'int' object is not callable"),
   mkState (regs st) (_MODE_REGISTER, regs st _MODE_REGISTER)
           (trace st ++ [BusRead _CALIBRATION_REGISTER;
                         BusRead _MODE_REGISTER])).
Proof.
  intros H. unfold BNO055.get_calibration, bind at 1. rewrite calibrated_eq.
  rewrite H. cbn [andb Z.eqb Pos.eqb negb].
  rewrite calibration_status_eq. cbn [snd].
  unfold getattr. cbn [BNO055.mode setter readonly_property fget].
  unfold BNO055.mode_getter.
  erewrite bind_ok by (apply read_register_eq; reflexivity).
  cbn [regs trace]. rewrite <- app_assoc. reflexivity.
Qed.

(** C3. Whenever the calibration status is not (3,3,3,3), [get_calibration]
    raises [ValueError] ("Device not yet calibrated!", the not-calibrated
    error); its only bus transaction is the read of the status register, so
    the trace gains no register write and the registers are unchanged. *)
Theorem get_calibration_uncalibrated : forall st,
  fst (getattr BNO055.calibration_status st) <> Ok (3, 3, 3, 3) ->
  fst (BNO055.get_calibration st) =
    Raise (ValueError "Device not yet calibrated!") /\
  trace (snd (BNO055.get_calibration st)) =
    trace st ++ [BusRead _CALIBRATION_REGISTER] /\
  register_writes (trace (snd (BNO055.get_calibration st))) =
    register_writes (trace st) /\
  regs (snd (BNO055.get_calibration st)) = regs st.
Proof.
  intros st H. rewrite (get_calibration_not_calibrated st H).
  rewrite calibration_status_eq. cbn [fst snd trace regs]. repeat split.
  unfold register_writes. rewrite filter_app. cbn. apply app_nil_r.
Qed.

Lemma get_calibration_uncalibrated_witness :
  fst (getattr BNO055.calibration_status (chip 0xa0 NDOF_MODE 0x3f 0)) <>
    Ok (3, 3, 3, 3) /\
  fst (BNO055.get_calibration (chip 0xa0 NDOF_MODE 0x3f 0)) =
    Raise (ValueError "Device not yet calibrated!") /\
  trace (snd (BNO055.get_calibration (chip 0xa0 NDOF_MODE 0x3f 0))) =
    [BusRead _CALIBRATION_REGISTER].
Proof.
  assert (H : fst (getattr BNO055.calibration_status
                     (chip 0xa0 NDOF_MODE 0x3f 0)) <> Ok (3, 3, 3, 3))
    by (vm_compute; discriminate).
  split; [exact H |].
  destruct (get_calibration_uncalibrated (chip 0xa0 NDOF_MODE 0x3f 0) H)
    as (Hr & Ht & _).
  split; [exact Hr | exact Ht].
Defined.

(** C4. On a fully calibrated chip [get_calibration] returns nothing: after
    reading the status register it evaluates [self.mode(CONFIG_MODE)], that
    is, it reads the mode register through the [mode] property and calls the
    integer it gets, which raises [TypeError].  No block is read at 0x55 and
    no register is written, whatever mode is active. *)
Theorem get_calibration_calibrated_raises : forall st,
  fst (getattr BNO055.calibration_status st) = Ok (3, 3, 3, 3) ->
  fst (BNO055.get_calibration st) =
    Raise (TypeError "'int' object is not callable") /\
  trace (snd (BNO055.get_calibration st)) =
    trace st ++ [BusRead _CALIBRATION_REGISTER; BusRead _MODE_REGISTER] /\
  regs (snd (BNO055.get_calibration st)) = regs st.
Proof.
  intros st H. rewrite (get_calibration_calibrated st H).
  cbn [fst snd trace regs]. repeat split.
Qed.

Lemma get_calibration_calibrated_raises_witness :
  fst (getattr BNO055.calibration_status (chip 0xa0 NDOF_MODE 0xff 0)) =
    Ok (3, 3, 3, 3) /\
  fst (BNO055.get_calibration (chip 0xa0 NDOF_MODE 0xff 0)) =
    Raise (TypeError "'int' object is not callable").
Proof.
  assert (H : fst (getattr BNO055.calibration_status
                     (chip 0xa0 NDOF_MODE 0xff 0)) = Ok (3, 3, 3, 3))
    by reflexivity.
  split; [exact H |].
  exact (proj1 (get_calibration_calibrated_raises
                  (chip 0xa0 NDOF_MODE 0xff 0) H)).
Defined.

(** C5, as stated, fails on its example: the status byte 0b11100100 (0xe4)
    does not decode to (3, 2, 0, 0). *)
Lemma calibration_status_example_refuted :
  fst (getattr BNO055.calibration_status (chip 0xa0 NDOF_MODE 0xe4 0))
  <> Ok (3, 2, 0, 0).
Proof. vm_compute. discriminate. Qed.

(** C5, amended. [calibration_status] always succeeds, writes nothing, and
    returns the four two-bit fields of the status byte: sys is bits 7:6, gyro
    bits 5:4, accel bits 3:2, mag bits 1:0.  For the status byte 0b11100100
    (0xe4) that is (sys=3, gyro=2, accel=1, mag=0). *)
Theorem calibration_status_layout : forall st d,
  regs st _CALIBRATION_REGISTER = d ->
  exists sys gyro accel mag,
    fst (getattr BNO055.calibration_status st) = Ok (sys, gyro, accel, mag) /\
    two_bit_field d 6 sys /\
    two_bit_field d 4 gyro /\
    two_bit_field d 2 accel /\
    two_bit_field d 0 mag /\
    regs (snd (getattr BNO055.calibration_status st)) = regs st /\
    (d = 0xe4 -> (sys, gyro, accel, mag) = (3, 2, 1, 0)).
Proof.
  intros st d Hd. rewrite calibration_status_eq. rewrite Hd. cbv zeta.
  do 4 eexists. cbn [fst snd regs]. split; [reflexivity |].
  repeat split; try (apply field_of_shift; lia); try apply land_3_range.
  - rewrite Z.land_spec. change (Z.testbit 3 0) with true.
    apply andb_true_r.
  - rewrite Z.land_spec. change (Z.testbit 3 1) with true.
    apply andb_true_r.
  - intros ->. reflexivity.
Qed.

Lemma calibration_status_layout_witness :
  regs (chip 0xa0 NDOF_MODE 0xe4 0) _CALIBRATION_REGISTER = 0xe4 /\
  fst (getattr BNO055.calibration_status (chip 0xa0 NDOF_MODE 0xe4 0)) =
    Ok (3, 2, 1, 0).
Proof.
  split; [reflexivity |].
  destruct (calibration_status_layout (chip 0xa0 NDOF_MODE 0xe4 0)
              0xe4 eq_refl)
    as (sys & gyro & accel & mag & Hrun & _ & _ & _ & _ & _ & Hex).
  rewrite Hrun. f_equal. apply Hex. reflexivity.
Defined.

(** ** Writing a calibration profile *)

(** The body of [set_calibration], as reached by calling the function
    itself rather than the member.  Handed [None] or a sequence whose length
    is not 22, it raises [ValueError] ("Expected a list of 22 bytes of
    calibration data!", the invalid-length error) as its first step: the
    state, registers and trace included, is exactly as before. *)
Theorem set_calibration_rejects_wrong_length : forall data st,
  data_length data <> Some 22%nat ->
  BNO055.set_calibration data st =
  (Raise (ValueError "Expected a list of 22 bytes of calibration data!"), st).
Proof.
  intros [bytes |] st H; [| reflexivity].
  unfold BNO055.set_calibration.
  destruct (Nat.eqb_spec (List.length bytes) 22) as [E | E].
  - exfalso. apply H. cbn. rewrite E. reflexivity.
  - reflexivity.
Qed.

Lemma set_calibration_rejects_wrong_length_witness :
  data_length (Some (repeat 0 21)) <> Some 22%nat /\
  data_length None <> Some 22%nat /\
  BNO055.set_calibration (Some (repeat 0 21)) (chip 0xa0 NDOF_MODE 0xff 0) =
  (Raise (ValueError "Expected a list of 22 bytes of calibration data!"),
   chip 0xa0 NDOF_MODE 0xff 0) /\
  BNO055.set_calibration None (chip 0xa0 NDOF_MODE 0xff 0) =
  (Raise (ValueError "Expected a list of 22 bytes of calibration data!"),
   chip 0xa0 NDOF_MODE 0xff 0).
Proof.
  assert (H21 : data_length (Some (repeat 0 21)) <> Some 22%nat)
    by (vm_compute; discriminate).
  assert (HNone : data_length None <> Some 22%nat)
    by (vm_compute; discriminate).
  split; [exact H21 |]. split; [exact HNone |]. split.
  - exact (set_calibration_rejects_wrong_length _ _ H21).
  - exact (set_calibration_rejects_wrong_length _ _ HNone).
Defined.

(** C6. As the class declares it, [set_calibration] is a property whose
    getter needs [data].  Every use through the driver object starts by
    reading the attribute, and that read raises [TypeError] on the missing
    argument before the length test of the body runs; assigning to the
    attribute raises [AttributeError], the property having no setter.  So
    whatever the data, None and wrong lengths included, the invalid-length
    [ValueError] is not what comes out.  The state, registers and trace
    included, is left exactly as it was. *)
Theorem set_calibration_property_skips_length_test :
  forall (data : option (list Z)) st,
  getattr BNO055.set_calibration_property st =
    (Raise (TypeError
       "set_calibration() missing 1 required positional argument: 'data'"),
     st) /\
  setattr BNO055.set_calibration_property data st =
    (Raise (AttributeError "can't set attribute"), st) /\
  fst (getattr BNO055.set_calibration_property st) <>
    Raise (ValueError "Expected a list of 22 bytes of calibration data!") /\
  fst (setattr BNO055.set_calibration_property data st) <>
    Raise (ValueError "Expected a list of 22 bytes of calibration data!").
Proof.
  intros data st. split; [reflexivity |]. split; [reflexivity |].
  split; cbn; discriminate.
Qed.

(** The same holds of the two file functions, which declare [fpath];
    [get_calibration] declares nothing after [self], so reading it runs the
    body. *)
Lemma file_properties_fail_on_read CAL_DATA_PATH (fs : filesystem) st :
  getattr (BNO055.load_calibration_property CAL_DATA_PATH fs) st =
    (Raise (TypeError
       "load_calibration() missing 1 required positional argument: 'fpath'"),
     st) /\
  getattr (BNO055.save_calibration_property CAL_DATA_PATH fs) st =
    (Raise (TypeError
       "save_calibration() missing 1 required positional argument: 'fpath'"),
     st) /\
  getattr BNO055.get_calibration_property st = BNO055.get_calibration st.
Proof. repeat split. Qed.


(** [_read_bytes] asks for an attribute the object does not have. *)
Lemma read_bytes_raises address length st :
  BNO055._read_bytes address length st =
  (Raise (AttributeError "_i2c_device"), st).
Proof. reflexivity. Qed.

(** ** The external-crystal toggle *)

(** Assigning to [use_external_crystal] while the mode register holds a
    byte: the trigger register takes the clock bit, the page register 0, and
    the mode register ends as it began. *)
Lemma use_external_crystal_set value st :
  is_byte (regs st _MODE_REGISTER) = true ->
  exists st',
    setattr BNO055.use_external_crystal value st = (Ok tt, st') /\
    forall r, regs st' r =
      if r =? _MODE_REGISTER then regs st _MODE_REGISTER
      else if r =? _TRIGGER_REGISTER then (if value then 0x80 else 0x00)
      else if r =? _PAGE_REGISTER then 0x00
      else regs st r.
Proof.
  intros Hb. unfold setattr.
  cbn [BNO055.use_external_crystal setter fset].
  unfold BNO055.use_external_crystal_setter.
  erewrite bind_ok by apply mode_getter_eq.
  set (st1 := mkState _ _ _).
  destruct (mode_setter_eq CONFIG_MODE st1 eq_refl) as (st2 & H2 & _ & R2).
  erewrite bind_ok by exact H2.
  erewrite bind_ok by (apply write_register_eq; reflexivity).
  erewrite bind_ok
    by (apply write_register_eq; [reflexivity | destruct value; reflexivity]).
  set (st4 := mkState _ _ _).
  destruct (mode_setter_eq (regs st _MODE_REGISTER) st4 Hb)
    as (st5 & H5 & _ & R5).
  erewrite bind_ok by exact H5.
  rewrite sleep_eq. eexists. split; [reflexivity |].
  intros r. cbn [regs]. rewrite R5.
  destruct (Z.eqb_spec r _MODE_REGISTER) as [-> | Hm]; [reflexivity |].
  subst st4. cbn [regs]. unfold update.
  destruct (Z.eqb_spec r _TRIGGER_REGISTER) as [-> | Ht]; [reflexivity |].
  destruct (Z.eqb_spec r _PAGE_REGISTER) as [-> | Hp]; [reflexivity |].
  rewrite R2. apply Z.eqb_neq in Hm. rewrite Hm. reflexivity.
Qed.

(** Reading the toggle while the mode register holds a byte: the answer is
    whether the trigger register holds exactly 0x80, and the mode register
    ends as it began. *)
Lemma external_crystal_get st :
  is_byte (regs st _MODE_REGISTER) = true ->
  exists st',
    BNO055.external_crystal_getter st =
      (Ok (regs st _TRIGGER_REGISTER =? 0x80), st') /\
    forall r, regs st' r =
      if r =? _MODE_REGISTER then regs st _MODE_REGISTER
      else if r =? _PAGE_REGISTER then 0x00
      else regs st r.
Proof.
  intros Hb. unfold BNO055.external_crystal_getter.
  erewrite bind_ok by apply mode_getter_eq.
  set (st1 := mkState _ _ _).
  destruct (mode_setter_eq CONFIG_MODE st1 eq_refl) as (st2 & H2 & _ & R2).
  erewrite bind_ok by exact H2.
  erewrite bind_ok by (apply write_register_eq; reflexivity).
  set (st3 := mkState _ _ _).
  erewrite bind_ok by (apply read_register_eq; reflexivity).
  set (st4 := mkState (regs st3) _ _).
  destruct (mode_setter_eq (regs st _MODE_REGISTER) st4 Hb)
    as (st5 & H5 & _ & R5).
  erewrite bind_ok by exact H5.
  assert (Hv : regs st3 _TRIGGER_REGISTER = regs st _TRIGGER_REGISTER).
  { subst st3. cbn [regs]. rewrite update_other by discriminate.
    rewrite R2. reflexivity. }
  rewrite Hv. eexists. split; [reflexivity |].
  intros r. rewrite R5.
  destruct (Z.eqb_spec r _MODE_REGISTER) as [-> | Hm]; [reflexivity |].
  subst st4 st3. cbn [regs]. unfold update.
  destruct (Z.eqb_spec r _PAGE_REGISTER) as [-> | Hp]; [reflexivity |].
  rewrite R2. apply Z.eqb_neq in Hm. rewrite Hm. reflexivity.
Qed.

(** C7. Whatever operating mode M the mode register holds, assigning true to
    the toggle ([use_external_crystal], the property that has the setter)
    succeeds, and reading the toggle afterwards, under either of its two
    names, returns true; the mode register holds M after the assignment and
    after the read. *)
Theorem external_crystal_round_trip : forall st M,
  In M operating_modes ->
  regs st _MODE_REGISTER = M ->
  exists st1 st2,
    setattr BNO055.use_external_crystal true st = (Ok tt, st1) /\
    regs st1 _MODE_REGISTER = M /\
    getattr BNO055.use_external_crystal st1 = (Ok true, st2) /\
    getattr BNO055.external_crystal st1 = (Ok true, st2) /\
    regs st2 _MODE_REGISTER = M.
Proof.
  intros st M HM Hreg.
  assert (Hb : is_byte (regs st _MODE_REGISTER) = true)
    by (rewrite Hreg; apply operating_modes_are_bytes; exact HM).
  destruct (use_external_crystal_set true st Hb) as (st1 & Hset & R1).
  assert (Hmode1 : regs st1 _MODE_REGISTER = M)
    by (rewrite R1; exact Hreg).
  assert (Hb1 : is_byte (regs st1 _MODE_REGISTER) = true)
    by (rewrite Hmode1; apply operating_modes_are_bytes; exact HM).
  destruct (external_crystal_get st1 Hb1) as (st2 & Hget & R2).
  assert (Htrig : regs st1 _TRIGGER_REGISTER = 0x80)
    by (rewrite R1; reflexivity).
  rewrite Htrig in Hget. change (0x80 =? 0x80) with true in Hget.
  exists st1, st2. repeat split; try assumption.
  rewrite R2. exact Hmode1.
Qed.

Lemma external_crystal_round_trip_witness :
  In NDOF_MODE operating_modes /\
  regs (chip 0xa0 NDOF_MODE 0xff 0) _MODE_REGISTER = NDOF_MODE /\
  exists st1 st2,
    setattr BNO055.use_external_crystal true (chip 0xa0 NDOF_MODE 0xff 0) =
      (Ok tt, st1) /\
    regs st1 _MODE_REGISTER = NDOF_MODE /\
    getattr BNO055.use_external_crystal st1 = (Ok true, st2) /\
    getattr BNO055.external_crystal st1 = (Ok true, st2) /\
    regs st2 _MODE_REGISTER = NDOF_MODE.
Proof.
  assert (H : In NDOF_MODE operating_modes) by (vm_compute; tauto).
  split; [exact H |]. split; [reflexivity |].
  exact (external_crystal_round_trip (chip 0xa0 NDOF_MODE 0xff 0) NDOF_MODE
           H eq_refl).
Defined.

(** ** Loading a calibration file *)

Lemma split_nonempty sep s : split sep s <> [].
Proof.
  destruct s as [| c s']; cbn; [discriminate |].
  destruct (Ascii.eqb c sep); [discriminate |].
  destruct (split sep s'); discriminate.
Qed.

(** How the pieces of [split] relate to the lines of a text: a text that is
    empty or ends with a newline has one piece more than it has lines (the
    empty piece at the end); any other text has as many. *)
Lemma split_length_line_count s :
  List.length (split newline s) =
  if ends_with_newline s then S (line_count s)
  else match s with
       | EmptyString => 1%nat
       | _ => line_count s
       end.
Proof.
  induction s as [| c s' IH]; [reflexivity |].
  cbn [split line_count ends_with_newline].
  destruct (Ascii.eqb c newline) eqn:Ec.
  - cbn [List.length]. rewrite IH.
    destruct s' as [| c' s'']; [reflexivity |].
    destruct (ends_with_newline (String c' s'')); reflexivity.
  - assert (Hlen : List.length
                     (match split newline s' with
                      | [] => [String c EmptyString]
                      | piece :: pieces => String c piece :: pieces
                      end) = List.length (split newline s')).
    { destruct (split newline s') eqn:E; [| reflexivity].
      exfalso. exact (split_nonempty _ _ E). }
    rewrite Hlen, IH.
    destruct s' as [| c' s'']; [reflexivity |].
    destruct (ends_with_newline (String c' s'')); reflexivity.
Qed.

Section LoadCalibration.

Variable CAL_DATA_PATH : string.
Variable fs : filesystem.
Variable text : string.
Hypothesis file_present : fs (CAL_DATA_PATH ++ CAL_DATA_NAME)%string = Some text.

(** The length check of [load_calibration] counts the pieces of
    [split('\n')]: any other number than 22 is the malformed-file error, with
    no bus transaction. *)
Lemma load_calibration_wrong_piece_count fpath st :
  List.length (split newline text) <> 22%nat ->
  BNO055.load_calibration CAL_DATA_PATH fs fpath st =
  (Raise (ValueError "Expected a list of 22 bytes of calibration data!"), st).
Proof.
  intros H. unfold BNO055.load_calibration. rewrite file_present.
  cbn [file_read exhausted content].
  destruct (Nat.eqb_spec (List.length (split newline text)) 22);
    [contradiction | reflexivity].
Qed.

(** A text that passes the length check is read a second time; the file is
    exhausted by then, the loop runs once over the empty string, and its
    body fails on the undefined name [byte]. *)
Lemma load_calibration_right_piece_count fpath st :
  List.length (split newline text) = 22%nat ->
  BNO055.load_calibration CAL_DATA_PATH fs fpath st =
  (Raise (NameError "byte"), st).
Proof.
  intros H. unfold BNO055.load_calibration. rewrite file_present.
  cbn [file_read exhausted content]. rewrite H. reflexivity.
Qed.

(** Whatever the file holds, [load_calibration] returns no profile and
    leaves registers and trace alone. *)
Lemma load_calibration_never_returns fpath st :
  (forall data,
      fst (BNO055.load_calibration CAL_DATA_PATH fs fpath st) <> Ok data) /\
  snd (BNO055.load_calibration CAL_DATA_PATH fs fpath st) = st.
Proof.
  destruct (Nat.eq_dec (List.length (split newline text)) 22) as [E | E].
  - rewrite (load_calibration_right_piece_count fpath st E).
    split; [intros data; discriminate | reflexivity].
  - rewrite (load_calibration_wrong_piece_count fpath st E).
    split; [intros data; discriminate | reflexivity].
Qed.

(** For a text that ends with a newline the check is off by one: 21 lines
    pass it, 22 lines do not. *)
Lemma load_calibration_21_terminated_lines fpath st :
  ends_with_newline text = true ->
  line_count text = 21%nat ->
  BNO055.load_calibration CAL_DATA_PATH fs fpath st =
  (Raise (NameError "byte"), st).
Proof.
  intros He Hl. apply load_calibration_right_piece_count.
  rewrite split_length_line_count, He, Hl. reflexivity.
Qed.

Lemma load_calibration_22_terminated_lines fpath st :
  ends_with_newline text = true ->
  line_count text = 22%nat ->
  BNO055.load_calibration CAL_DATA_PATH fs fpath st =
  (Raise (ValueError "Expected a list of 22 bytes of calibration data!"), st).
Proof.
  intros He Hl. apply load_calibration_wrong_piece_count.
  rewrite split_length_line_count, He, Hl. discriminate.
Qed.

End LoadCalibration.

(** C8. A calibration file of 21 lines, each ended by a newline, is not
    rejected with the malformed-file [ValueError]: [split] yields 22 pieces
    (the last one empty), the length check passes, and the call fails with
    [NameError] in the loop instead.  No register is touched. *)
Theorem load_calibration_21_lines : forall CAL_DATA_PATH fpath st,
  line_count (repeat_string 21 (text_line "0")) = 21%nat /\
  List.length (split newline (repeat_string 21 (text_line "0"))) = 22%nat /\
  BNO055.load_calibration CAL_DATA_PATH
    (every_file (repeat_string 21 (text_line "0"))) fpath st =
  (Raise (NameError "byte"), st).
Proof.
  intros path fpath st. split; [reflexivity |]. split; [reflexivity |].
  apply load_calibration_right_piece_count with
    (text := repeat_string 21 (text_line "0")); reflexivity.
Qed.

(** ** Measurement accessors *)

Section Measurements.

Context {F : Type} {float_ops : FloatOps F}.

(** A scaled three-field accessor reads six registers in one block and
    scales the three little-endian signed 16-bit values. *)
Lemma scaled_get_three_fields (a : Z) (scale : F) st :
  __get__ (_ScaledReadOnlyStruct a "<hhh" scale) st =
  (Ok (Tuple
         [fmul_int scale
            (signed 16 (regs st (a + 0) + 256 * regs st (a + 1)));
          fmul_int scale
            (signed 16 (regs st (a + 2) + 256 * regs st (a + 3)));
          fmul_int scale
            (signed 16 (regs st (a + 4) + 256 * regs st (a + 5)))]),
   mkState (regs st) (buffer st) (trace st ++ [BusReadBlock a 6])).
Proof. reflexivity. Qed.

Lemma temperature_get st :
  __get__ (BNO055.temperature (F := F)) st =
  (Ok (Scalar (signed 8 (regs st 0x34))),
   mkState (regs st) (buffer st) (trace st ++ [BusReadBlock 0x34 1])).
Proof. reflexivity. Qed.

End Measurements.

(** C9. Assigning any value to any of the seven scaled measurement
    accessors or to [temperature] raises [NotImplementedError] (the
    unsupported-operation error) and leaves the state, registers and trace
    included, exactly as it was. *)
Theorem measurements_reject_assignment :
  forall (F : Type) (float_ops : FloatOps F) (V : Type) (value : V) st,
  Forall (fun d : descriptor F =>
            __set__ d value st = (Raise NotImplementedError, st))
    [BNO055.acceleration; BNO055.magnetic; BNO055.gyroscope; BNO055.euler;
     BNO055.quaternion; BNO055.linear_acceleration; BNO055.gravity;
     BNO055.temperature].
Proof.
  intros F float_ops V value st.
  repeat (apply Forall_cons; [reflexivity |]). apply Forall_nil.
Qed.

(** C10. [accelerometer] and [acceleration] are the same descriptor: base
    address 0x08, layout "<hhh", scale 1/100; [magnetometer] and [magnetic]
    likewise with base address 0x0e and scale 1/16.  On every state, reading
    the deprecated accessor gives the same result and the same bus activity
    as reading its replacement. *)
Theorem deprecated_accessors_agree :
  forall (F : Type) (float_ops : FloatOps F) st,
  BNO055.accelerometer = _ScaledReadOnlyStruct 0x08 "<hhh" (truediv 1 100) /\
  BNO055.acceleration = _ScaledReadOnlyStruct 0x08 "<hhh" (truediv 1 100) /\
  BNO055.magnetometer = _ScaledReadOnlyStruct 0x0e "<hhh" (truediv 1 16) /\
  BNO055.magnetic = _ScaledReadOnlyStruct 0x0e "<hhh" (truediv 1 16) /\
  __get__ (BNO055.accelerometer (F := F)) st = __get__ BNO055.acceleration st /\
  __get__ (BNO055.magnetometer (F := F)) st = __get__ BNO055.magnetic st /\
  fst (__get__ (BNO055.accelerometer (F := F)) st) =
    Ok (Tuple
          (map (fmul_int (truediv 1 100))
             [signed 16 (regs st 0x08 + 256 * regs st 0x09);
              signed 16 (regs st 0x0a + 256 * regs st 0x0b);
              signed 16 (regs st 0x0c + 256 * regs st 0x0d)])) /\
  fst (__get__ (BNO055.magnetometer (F := F)) st) =
    Ok (Tuple
          (map (fmul_int (truediv 1 16))
             [signed 16 (regs st 0x0e + 256 * regs st 0x0f);
              signed 16 (regs st 0x10 + 256 * regs st 0x11);
              signed 16 (regs st 0x12 + 256 * regs st 0x13)])).
Proof.
  intros F float_ops st. repeat split.
Qed.

(** * Further properties of the driver *)

(** ** Register primitives *)

(** X1. A byte written to a register is what a following read of that
    register returns; the write changes no other register and the read
    changes none. *)
Theorem write_then_read_register : forall register value st,
  0 <= register < 256 ->
  0 <= value < 256 ->
  exists st1 st2,
    BNO055._write_register register value st = (Ok tt, st1) /\
    BNO055._read_register register st1 = (Ok value, st2) /\
    regs st2 = regs st1 /\
    (forall r, r <> register -> regs st1 r = regs st r).
Proof.
  intros register value st Hr Hv.
  apply is_byte_iff in Hr. apply is_byte_iff in Hv.
  eexists. eexists. split; [apply write_register_eq; assumption |].
  rewrite read_register_eq by assumption. cbn [regs].
  rewrite update_same. split; [reflexivity |]. split; [reflexivity |].
  intros r Hneq. apply update_other. exact Hneq.
Qed.

Lemma write_then_read_register_witness :
  exists st1 st2,
    BNO055._write_register _PAGE_REGISTER 0x01 (chip 0xa0 NDOF_MODE 0 0) =
      (Ok tt, st1) /\
    BNO055._read_register _PAGE_REGISTER st1 = (Ok 0x01, st2) /\
    regs st2 = regs st1 /\
    (forall r, r <> _PAGE_REGISTER ->
               regs st1 r = regs (chip 0xa0 NDOF_MODE 0 0) r).
Proof.
  apply (write_then_read_register _PAGE_REGISTER 0x01
           (chip 0xa0 NDOF_MODE 0 0)); unfold _PAGE_REGISTER; lia.
Defined.

(** X2. A register number or a value outside 0..255 makes
    [_write_register] raise [ValueError] from the buffer assignment: no bus
    transaction is made and no register changes. *)
Theorem write_register_rejects_non_byte : forall register value st,
  ~ (0 <= register < 256 /\ 0 <= value < 256) ->
  fst (BNO055._write_register register value st) =
    Raise (ValueError "byte must be in range(0, 256)") /\
  trace (snd (BNO055._write_register register value st)) = trace st /\
  regs (snd (BNO055._write_register register value st)) = regs st.
Proof.
  intros register value st H.
  unfold BNO055._write_register, bind, buffer_set.
  destruct (is_byte value) eqn:Ev; destruct (is_byte register) eqn:Er;
    cbn -[is_byte]; try (repeat split; fail).
  exfalso. apply H. split; apply is_byte_iff; assumption.
Qed.

Lemma write_register_rejects_non_byte_witness :
  ~ (0 <= _MODE_REGISTER < 256 /\ 0 <= 256 < 256) /\
  fst (BNO055._write_register _MODE_REGISTER 256 (chip 0xa0 NDOF_MODE 0 0)) =
    Raise (ValueError "byte must be in range(0, 256)") /\
  trace (snd (BNO055._write_register _MODE_REGISTER 256
                (chip 0xa0 NDOF_MODE 0 0))) = [].
Proof.
  assert (H : ~ (0 <= _MODE_REGISTER < 256 /\ 0 <= 256 < 256)) by lia.
  split; [exact H |].
  destruct (write_register_rejects_non_byte _MODE_REGISTER 256
              (chip 0xa0 NDOF_MODE 0 0) H) as (Hr & Ht & _).
  split; [exact Hr | exact Ht].
Defined.

(** ** The mode property *)

(** X3. After [self.mode = M] for a byte M, reading [self.mode] returns M.
    The assignment changes no register but the mode register, and the read
    changes none. *)
Theorem mode_set_then_get : forall M st,
  0 <= M < 256 ->
  exists st1 st2,
    setattr BNO055.mode M st = (Ok tt, st1) /\
    getattr BNO055.mode st1 = (Ok M, st2) /\
    regs st2 = regs st1 /\
    (forall r, r <> _MODE_REGISTER -> regs st1 r = regs st r).
Proof.
  intros M st HM. apply is_byte_iff in HM.
  destruct (mode_setter_eq M st HM) as (st1 & Hset & _ & R1).
  exists st1. eexists. split; [exact Hset |].
  rewrite mode_getter_eq. rewrite R1. cbn [regs].
  split; [reflexivity |]. split; [reflexivity |].
  intros r Hneq. rewrite R1. apply Z.eqb_neq in Hneq. rewrite Hneq.
  reflexivity.
Qed.

Lemma mode_set_then_get_witness :
  exists st1 st2,
    setattr BNO055.mode IMUPLUS_MODE (chip 0xa0 NDOF_MODE 0xff 0) =
      (Ok tt, st1) /\
    getattr BNO055.mode st1 = (Ok IMUPLUS_MODE, st2) /\
    regs st2 = regs st1 /\
    (forall r, r <> _MODE_REGISTER ->
               regs st1 r = regs (chip 0xa0 NDOF_MODE 0xff 0) r).
Proof.
  apply (mode_set_then_get IMUPLUS_MODE (chip 0xa0 NDOF_MODE 0xff 0)).
  unfold IMUPLUS_MODE. lia.
Defined.

(** X4. Assigning a mode outside 0..255 fails with [ValueError] only after
    the switch to CONFIG has been made: the chip is left in CONFIG mode,
    whatever mode it was in. *)
Theorem mode_set_non_byte_leaves_config : forall M st,
  ~ (0 <= M < 256) ->
  fst (setattr BNO055.mode M st) =
    Raise (ValueError "byte must be in range(0, 256)") /\
  trace (snd (setattr BNO055.mode M st)) =
    trace st ++ [BusWrite _MODE_REGISTER CONFIG_MODE; Sleep 20] /\
  regs (snd (setattr BNO055.mode M st)) _MODE_REGISTER = CONFIG_MODE.
Proof.
  intros M st HM. unfold setattr. cbn [BNO055.mode setter fset].
  unfold BNO055.mode_setter.
  erewrite bind_ok by (apply write_register_eq; reflexivity).
  erewrite bind_ok by apply sleep_eq.
  assert (Hz : (M =? CONFIG_MODE) = false)
    by (apply Z.eqb_neq; unfold CONFIG_MODE; lia).
  rewrite Hz. cbn [negb].
  assert (Hb : is_byte M = false).
  { destruct (is_byte M) eqn:E; [| reflexivity].
    apply is_byte_iff in E. contradiction. }
  unfold BNO055._write_register, bind, buffer_set. cbn -[is_byte].
  rewrite Hb. cbn [fst snd trace regs]. rewrite <- app_assoc.
  repeat split.
Qed.

Lemma mode_set_non_byte_leaves_config_witness :
  ~ (0 <= 300 < 256) /\
  regs (snd (setattr BNO055.mode 300 (chip 0xa0 NDOF_MODE 0xff 0)))
       _MODE_REGISTER = CONFIG_MODE.
Proof.
  assert (H : ~ (0 <= 300 < 256)) by lia.
  split; [exact H |].
  exact (proj2 (proj2 (mode_set_non_byte_leaves_config 300
                         (chip 0xa0 NDOF_MODE 0xff 0) H))).
Defined.

(** ** Reset and construction *)

(** What [_reset] does, as an equation up to the registers. *)
Lemma reset_eq st :
  exists st',
    BNO055._reset st = (Ok tt, st') /\
    trace st' =
      trace st ++ [BusWrite _MODE_REGISTER CONFIG_MODE; Sleep 20;
                   BusWrite _TRIGGER_REGISTER 0x20; Sleep 700] /\
    (forall r, regs st' r =
               if r =? _TRIGGER_REGISTER then 0x20
               else if r =? _MODE_REGISTER then CONFIG_MODE
               else regs st r).
Proof.
  unfold BNO055._reset.
  destruct (mode_setter_eq CONFIG_MODE st eq_refl) as (st1 & H1 & T1 & R1).
  erewrite bind_ok by exact H1.
  assert (Htry : try_except_OSError
                   (BNO055._write_register _TRIGGER_REGISTER 0x20) st1 =
                 (Ok tt, mkState (update (regs st1) _TRIGGER_REGISTER 0x20)
                                 (_TRIGGER_REGISTER, 0x20)
                                 (trace st1 ++
                                  [BusWrite _TRIGGER_REGISTER 0x20]))).
  { unfold try_except_OSError.
    rewrite write_register_eq by reflexivity. reflexivity. }
  erewrite bind_ok by exact Htry.
  rewrite sleep_eq. eexists. split; [reflexivity |]. cbn [trace regs]. split.
  - rewrite T1. cbn [Z.eqb CONFIG_MODE]. repeat rewrite <- app_assoc.
    reflexivity.
  - intros r. unfold update.
    destruct (r =? _TRIGGER_REGISTER); [reflexivity |]. apply R1.
Qed.

(** X5. [_reset] always succeeds.  It switches to CONFIG, waits 20 ms,
    writes the reset bit 0x20 to the trigger register and waits 700 ms; the
    mode register then holds CONFIG, the trigger register 0x20, and every
    other register what it held. *)
Theorem reset_behaviour : forall st,
  fst (BNO055._reset st) = Ok tt /\
  trace (snd (BNO055._reset st)) =
    trace st ++ [BusWrite _MODE_REGISTER CONFIG_MODE; Sleep 20;
                 BusWrite _TRIGGER_REGISTER 0x20; Sleep 700] /\
  (forall r, regs (snd (BNO055._reset st)) r =
             if r =? _TRIGGER_REGISTER then 0x20
             else if r =? _MODE_REGISTER then CONFIG_MODE
             else regs st r).
Proof.
  intros st. destruct (reset_eq st) as (st' & H & T & R).
  rewrite H. cbn [fst snd]. split; [reflexivity |].
  split; [exact T | exact R].
Qed.

(** X6. On a chip whose identity register holds 0xA0 the constructor
    succeeds.  After the identity read it resets the chip, writes normal
    power mode, page 0 and a cleared trigger register, waits 10 ms, switches
    to NDOF through CONFIG and waits 10 ms more.  The mode register ends at
    NDOF, the power, page and trigger registers at 0, and no other register
    is changed. *)
Theorem init_good_chip_id : forall st,
  regs st _ID_REGISTER = _CHIP_ID ->
  fst (BNO055.__init__ st) = Ok tt /\
  trace (snd (BNO055.__init__ st)) =
    trace st ++
    [BusRead _ID_REGISTER;
     BusWrite _MODE_REGISTER CONFIG_MODE; Sleep 20;
     BusWrite _TRIGGER_REGISTER 0x20; Sleep 700;
     BusWrite _POWER_REGISTER _POWER_NORMAL;
     BusWrite _PAGE_REGISTER 0x00;
     BusWrite _TRIGGER_REGISTER 0x00; Sleep 10;
     BusWrite _MODE_REGISTER CONFIG_MODE; Sleep 20;
     BusWrite _MODE_REGISTER NDOF_MODE; Sleep 10;
     Sleep 10] /\
  (forall r, regs (snd (BNO055.__init__ st)) r =
             if r =? _MODE_REGISTER then NDOF_MODE
             else if r =? _TRIGGER_REGISTER then 0x00
             else if r =? _PAGE_REGISTER then 0x00
             else if r =? _POWER_REGISTER then _POWER_NORMAL
             else regs st r).
Proof.
  intros st Hid. unfold BNO055.__init__.
  erewrite bind_ok by reflexivity.
  erewrite bind_ok by (apply read_register_eq; reflexivity).
  cbn [regs]. rewrite Hid. cbn [Z.eqb _CHIP_ID Pos.eqb negb].
  set (st1 := mkState _ _ _).
  destruct (reset_eq st1) as (st2 & H2 & T2 & R2).
  erewrite bind_ok by exact H2.
  erewrite bind_ok by (apply write_register_eq; reflexivity).
  erewrite bind_ok by (apply write_register_eq; reflexivity).
  erewrite bind_ok by (apply write_register_eq; reflexivity).
  erewrite bind_ok by apply sleep_eq.
  set (st6 := mkState _ _ _).
  destruct (mode_setter_eq NDOF_MODE st6 eq_refl) as (st7 & H7 & T7 & R7).
  erewrite bind_ok by exact H7.
  rewrite sleep_eq. cbn [fst snd trace regs]. split; [reflexivity |]. split.
  - rewrite T7. subst st6. cbn [trace]. rewrite T2. subst st1. cbn [trace].
    cbn [Z.eqb NDOF_MODE CONFIG_MODE]. repeat rewrite <- app_assoc.
    reflexivity.
  - intros r. rewrite R7.
    destruct (Z.eqb_spec r _MODE_REGISTER) as [-> | Hm]; [reflexivity |].
    subst st6. cbn [regs]. unfold update.
    destruct (Z.eqb_spec r _TRIGGER_REGISTER) as [-> | Ht]; [reflexivity |].
    destruct (Z.eqb_spec r _PAGE_REGISTER) as [-> | Hp]; [reflexivity |].
    destruct (Z.eqb_spec r _POWER_REGISTER) as [-> | Hw]; [reflexivity |].
    rewrite R2. apply Z.eqb_neq in Hm, Ht. rewrite Hm, Ht. reflexivity.
Qed.

Lemma init_good_chip_id_witness :
  regs (chip 0xa0 ACCONLY_MODE 0 0x80) _ID_REGISTER = _CHIP_ID /\
  fst (BNO055.__init__ (chip 0xa0 ACCONLY_MODE 0 0x80)) = Ok tt /\
  regs (snd (BNO055.__init__ (chip 0xa0 ACCONLY_MODE 0 0x80)))
       _MODE_REGISTER = NDOF_MODE.
Proof.
  split; [reflexivity |].
  destruct (init_good_chip_id (chip 0xa0 ACCONLY_MODE 0 0x80) eq_refl)
    as (Hr & _ & Hregs).
  split; [exact Hr |]. rewrite Hregs. reflexivity.
Defined.

(** ** Calibration status, continued *)

Lemma shiftr_land_3 d k :
  0 <= k -> Z.land (Z.shiftr d k) 3 = (d / 2 ^ k) mod 4.
Proof.
  intros Hk. rewrite Z.shiftr_div_pow2 by exact Hk.
  change 3 with (Z.ones 2). rewrite Z.land_ones by lia. reflexivity.
Qed.

(** X7. The status byte can be rebuilt from the four fields
    [calibration_status] returns: for a status register holding a byte d,
    64*sys + 16*gyro + 4*accel + mag = d.  No two status bytes decode to the
    same tuple. *)
Theorem calibration_status_lossless : forall st,
  0 <= regs st _CALIBRATION_REGISTER < 256 ->
  exists sys gyro accel mag,
    fst (getattr BNO055.calibration_status st) = Ok (sys, gyro, accel, mag) /\
    64 * sys + 16 * gyro + 4 * accel + mag = regs st _CALIBRATION_REGISTER.
Proof.
  intros st Hd. rewrite calibration_status_eq. cbv zeta. cbn [fst].
  do 4 eexists. split; [reflexivity |].
  set (d := regs st _CALIBRATION_REGISTER) in *.
  rewrite !shiftr_land_3 by lia.
  replace (Z.land d 3) with ((d / 2 ^ 0) mod 4)
    by (rewrite <- shiftr_land_3 by lia; rewrite Z.shiftr_0_r; reflexivity).
  change (2 ^ 6) with 64. change (2 ^ 4) with 16. change (2 ^ 2) with 4.
  change (2 ^ 0) with 1. rewrite Z.div_1_r.
  Z.div_mod_to_equations. lia.
Qed.

Lemma calibration_status_lossless_witness :
  0 <= regs (chip 0xa0 NDOF_MODE 0xe4 0) _CALIBRATION_REGISTER < 256 /\
  exists sys gyro accel mag,
    fst (getattr BNO055.calibration_status (chip 0xa0 NDOF_MODE 0xe4 0)) =
      Ok (sys, gyro, accel, mag) /\
    64 * sys + 16 * gyro + 4 * accel + mag = 0xe4.
Proof.
  assert (H : 0 <= regs (chip 0xa0 NDOF_MODE 0xe4 0) _CALIBRATION_REGISTER
              < 256) by (cbn; lia).
  split; [exact H |].
  exact (calibration_status_lossless (chip 0xa0 NDOF_MODE 0xe4 0) H).
Defined.

(** X8. For a status register holding a byte, [calibrated] is true exactly
    when that byte is 0xFF; asking costs one register read and writes
    nothing. *)
Theorem calibrated_iff_status_ff : forall st,
  0 <= regs st _CALIBRATION_REGISTER < 256 ->
  fst (getattr BNO055.calibrated st) =
    Ok (regs st _CALIBRATION_REGISTER =? 0xff) /\
  trace (snd (getattr BNO055.calibrated st)) =
    trace st ++ [BusRead _CALIBRATION_REGISTER] /\
  regs (snd (getattr BNO055.calibrated st)) = regs st.
Proof.
  intros st Hd. rewrite calibrated_eq, calibration_status_eq.
  cbv zeta. cbn [fst snd trace regs]. split; [| split; reflexivity].
  f_equal.
  set (d := regs st _CALIBRATION_REGISTER) in *.
  rewrite !shiftr_land_3 by lia.
  replace (Z.land d 3) with ((d / 2 ^ 0) mod 4)
    by (rewrite <- shiftr_land_3 by lia; rewrite Z.shiftr_0_r; reflexivity).
  change (2 ^ 6) with 64. change (2 ^ 4) with 16. change (2 ^ 2) with 4.
  change (2 ^ 0) with 1. rewrite Z.div_1_r.
  destruct (Z.eqb_spec ((d / 64) mod 4) 3) as [Es | Es],
           (Z.eqb_spec ((d / 16) mod 4) 3) as [Eg | Eg],
           (Z.eqb_spec ((d / 4) mod 4) 3) as [Ea | Ea],
           (Z.eqb_spec (d mod 4) 3) as [Em | Em],
           (Z.eqb_spec d 0xff) as [Ed | Ed];
    cbn [andb]; try reflexivity; exfalso;
    revert Es Eg Ea Em Ed; Z.div_mod_to_equations; lia.
Qed.

Lemma calibrated_iff_status_ff_witness :
  0 <= regs (chip 0xa0 NDOF_MODE 0xfe 0) _CALIBRATION_REGISTER < 256 /\
  fst (getattr BNO055.calibrated (chip 0xa0 NDOF_MODE 0xfe 0)) = Ok false.
Proof.
  assert (H : 0 <= regs (chip 0xa0 NDOF_MODE 0xfe 0) _CALIBRATION_REGISTER
              < 256) by (cbn; lia).
  split; [exact H |].
  exact (proj1 (calibrated_iff_status_ff (chip 0xa0 NDOF_MODE 0xfe 0) H)).
Defined.

(** ** The external-crystal toggle, continued *)

(** X9. Whatever byte the mode register holds, assigning a value to
    [use_external_crystal] and then reading [external_crystal] returns that
    value, true or false.  Afterwards the mode register holds what it held
    before, the page register holds 0, and only the trigger and page
    registers may differ from before. *)
Theorem external_crystal_set_then_get : forall (value : bool) st,
  0 <= regs st _MODE_REGISTER < 256 ->
  exists st1 st2,
    setattr BNO055.use_external_crystal value st = (Ok tt, st1) /\
    getattr BNO055.external_crystal st1 = (Ok value, st2) /\
    regs st2 _MODE_REGISTER = regs st _MODE_REGISTER /\
    regs st2 _PAGE_REGISTER = 0x00 /\
    (forall r, r <> _TRIGGER_REGISTER -> r <> _PAGE_REGISTER ->
               regs st2 r = regs st r).
Proof.
  intros value st Hm. apply is_byte_iff in Hm.
  destruct (use_external_crystal_set value st Hm) as (st1 & Hset & R1).
  assert (Hmode1 : regs st1 _MODE_REGISTER = regs st _MODE_REGISTER)
    by (rewrite R1; reflexivity).
  assert (Hb1 : is_byte (regs st1 _MODE_REGISTER) = true)
    by (rewrite Hmode1; exact Hm).
  destruct (external_crystal_get st1 Hb1) as (st2 & Hget & R2).
  assert (Htrig : (regs st1 _TRIGGER_REGISTER =? 0x80) = value)
    by (rewrite R1; destruct value; reflexivity).
  rewrite Htrig in Hget.
  exists st1, st2. split; [exact Hset |]. split; [exact Hget |].
  split; [rewrite R2; exact Hmode1 |]. split; [rewrite R2; reflexivity |].
  intros r Ht Hp. rewrite R2.
  destruct (Z.eqb_spec r _MODE_REGISTER) as [-> | Hneq]; [exact Hmode1 |].
  apply Z.eqb_neq in Ht, Hp, Hneq. rewrite Hp, (R1 r), Hneq, Ht, Hp.
  reflexivity.
Qed.

Lemma external_crystal_set_then_get_witness :
  0 <= regs (chip 0xa0 NDOF_MODE 0xff 0x80) _MODE_REGISTER < 256 /\
  exists st1 st2,
    setattr BNO055.use_external_crystal false (chip 0xa0 NDOF_MODE 0xff 0x80) =
      (Ok tt, st1) /\
    getattr BNO055.external_crystal st1 = (Ok false, st2) /\
    regs st2 _MODE_REGISTER =
      regs (chip 0xa0 NDOF_MODE 0xff 0x80) _MODE_REGISTER /\
    regs st2 _PAGE_REGISTER = 0x00 /\
    (forall r, r <> _TRIGGER_REGISTER -> r <> _PAGE_REGISTER ->
               regs st2 r = regs (chip 0xa0 NDOF_MODE 0xff 0x80) r).
Proof.
  assert (H : 0 <= regs (chip 0xa0 NDOF_MODE 0xff 0x80) _MODE_REGISTER < 256)
    by (split; [apply Z.leb_le | apply Z.ltb_lt]; reflexivity).
  split; [exact H |].
  exact (external_crystal_set_then_get false
           (chip 0xa0 NDOF_MODE 0xff 0x80) H).
Defined.

(** X10. Reading [external_crystal] is not a plain register read.  With the
    mode register holding a byte m, it reads the mode, switches to CONFIG,
    writes 0 to the page register, reads the trigger register and switches
    back to m (a second write only when m is not CONFIG).  The answer is true
    exactly when the trigger register holds 0x80, so any other set bit beside
    the clock bit makes it false. *)
Theorem external_crystal_read_sequence : forall st,
  0 <= regs st _MODE_REGISTER < 256 ->
  fst (getattr BNO055.external_crystal st) =
    Ok (regs st _TRIGGER_REGISTER =? 0x80) /\
  trace (snd (getattr BNO055.external_crystal st)) =
    trace st ++
    [BusRead _MODE_REGISTER;
     BusWrite _MODE_REGISTER CONFIG_MODE; Sleep 20;
     BusWrite _PAGE_REGISTER 0x00;
     BusRead _TRIGGER_REGISTER;
     BusWrite _MODE_REGISTER CONFIG_MODE; Sleep 20] ++
    (if regs st _MODE_REGISTER =? CONFIG_MODE then []
     else [BusWrite _MODE_REGISTER (regs st _MODE_REGISTER); Sleep 10]).
Proof.
  intros st Hm. apply is_byte_iff in Hm.
  unfold getattr. cbn [BNO055.external_crystal readonly_property fget].
  unfold BNO055.external_crystal_getter.
  erewrite bind_ok by apply mode_getter_eq.
  set (st1 := mkState _ _ _).
  destruct (mode_setter_eq CONFIG_MODE st1 eq_refl) as (st2 & H2 & T2 & R2).
  erewrite bind_ok by exact H2.
  erewrite bind_ok by (apply write_register_eq; reflexivity).
  set (st3 := mkState _ _ _).
  erewrite bind_ok by (apply read_register_eq; reflexivity).
  set (st4 := mkState (regs st3) _ _).
  destruct (mode_setter_eq (regs st _MODE_REGISTER) st4 Hm)
    as (st5 & H5 & T5 & _).
  erewrite bind_ok by exact H5.
  assert (Hv : regs st3 _TRIGGER_REGISTER = regs st _TRIGGER_REGISTER).
  { subst st3. cbn [regs]. rewrite update_other by discriminate.
    rewrite R2. reflexivity. }
  rewrite Hv. unfold ret. cbn [fst snd]. split; [reflexivity |].
  rewrite T5. subst st4 st3. cbn [trace]. rewrite T2. subst st1.
  cbn [trace]. cbn [Z.eqb CONFIG_MODE]. repeat rewrite <- app_assoc.
  reflexivity.
Qed.

Lemma external_crystal_read_sequence_witness :
  0 <= regs (chip 0xa0 NDOF_MODE 0xff 0x81) _MODE_REGISTER < 256 /\
  fst (getattr BNO055.external_crystal (chip 0xa0 NDOF_MODE 0xff 0x81)) =
    Ok false.
Proof.
  assert (H : 0 <= regs (chip 0xa0 NDOF_MODE 0xff 0x81) _MODE_REGISTER < 256)
    by (split; [apply Z.leb_le | apply Z.ltb_lt]; reflexivity).
  split; [exact H |].
  exact (proj1 (external_crystal_read_sequence
                  (chip 0xa0 NDOF_MODE 0xff 0x81) H)).
Defined.

(** X11. Assigning to [use_external_crystal] with the mode register holding
    a byte m: the mode is read, the chip goes to CONFIG, page 0 is selected,
    the trigger register is written with 0x80 for a true value and 0x00
    otherwise, the mode goes back to m, and the call ends with a 10 ms
    wait. *)
Theorem use_external_crystal_write_sequence : forall (value : bool) st,
  0 <= regs st _MODE_REGISTER < 256 ->
  fst (setattr BNO055.use_external_crystal value st) = Ok tt /\
  trace (snd (setattr BNO055.use_external_crystal value st)) =
    trace st ++
    [BusRead _MODE_REGISTER;
     BusWrite _MODE_REGISTER CONFIG_MODE; Sleep 20;
     BusWrite _PAGE_REGISTER 0x00;
     BusWrite _TRIGGER_REGISTER (if value then 0x80 else 0x00);
     BusWrite _MODE_REGISTER CONFIG_MODE; Sleep 20] ++
    (if regs st _MODE_REGISTER =? CONFIG_MODE then []
     else [BusWrite _MODE_REGISTER (regs st _MODE_REGISTER); Sleep 10]) ++
    [Sleep 10].
Proof.
  intros value st Hm. apply is_byte_iff in Hm.
  unfold setattr. cbn [BNO055.use_external_crystal setter fset].
  unfold BNO055.use_external_crystal_setter.
  erewrite bind_ok by apply mode_getter_eq.
  set (st1 := mkState _ _ _).
  destruct (mode_setter_eq CONFIG_MODE st1 eq_refl) as (st2 & H2 & T2 & _).
  erewrite bind_ok by exact H2.
  erewrite bind_ok by (apply write_register_eq; reflexivity).
  erewrite bind_ok
    by (apply write_register_eq; [reflexivity | destruct value; reflexivity]).
  set (st4 := mkState _ _ _).
  destruct (mode_setter_eq (regs st _MODE_REGISTER) st4 Hm)
    as (st5 & H5 & T5 & _).
  erewrite bind_ok by exact H5.
  rewrite sleep_eq. cbn [fst snd trace]. split; [reflexivity |].
  rewrite T5. subst st4. cbn [trace]. rewrite T2. subst st1. cbn [trace].
  cbn [Z.eqb CONFIG_MODE]. repeat rewrite <- app_assoc. reflexivity.
Qed.

Lemma use_external_crystal_write_sequence_witness :
  0 <= regs (chip 0xa0 CONFIG_MODE 0 0) _MODE_REGISTER < 256 /\
  trace (snd (setattr BNO055.use_external_crystal true
                (chip 0xa0 CONFIG_MODE 0 0))) =
    [BusRead _MODE_REGISTER;
     BusWrite _MODE_REGISTER CONFIG_MODE; Sleep 20;
     BusWrite _PAGE_REGISTER 0x00;
     BusWrite _TRIGGER_REGISTER 0x80;
     BusWrite _MODE_REGISTER CONFIG_MODE; Sleep 20;
     Sleep 10].
Proof.
  assert (H : 0 <= regs (chip 0xa0 CONFIG_MODE 0 0) _MODE_REGISTER < 256)
    by (split; [apply Z.leb_le | apply Z.ltb_lt]; reflexivity).
  split; [exact H |].
  exact (proj2 (use_external_crystal_write_sequence true
                  (chip 0xa0 CONFIG_MODE 0 0) H)).
Defined.

(** ** Calibration profile and files, continued *)

Lemma calibration_status_cases st :
  fst (getattr BNO055.calibration_status st) = Ok (3, 3, 3, 3) \/
  fst (getattr BNO055.calibration_status st) <> Ok (3, 3, 3, 3).
Proof.
  rewrite calibration_status_eq. cbv zeta. cbn [fst].
  set (d := regs st _CALIBRATION_REGISTER).
  destruct (Z.eq_dec (Z.land (Z.shiftr d 6) 3) 3) as [Es | Es];
    [| right; intros [= H _ _ _]; contradiction].
  destruct (Z.eq_dec (Z.land (Z.shiftr d 4) 3) 3) as [Eg | Eg];
    [| right; intros [= _ H _ _]; contradiction].
  destruct (Z.eq_dec (Z.land (Z.shiftr d 2) 3) 3) as [Ea | Ea];
    [| right; intros [= _ _ H _]; contradiction].
  destruct (Z.eq_dec (Z.land d 3) 3) as [Em | Em];
    [| right; intros [= _ _ _ H]; contradiction].
  left. rewrite Es, Eg, Ea, Em. reflexivity.
Qed.

Lemma register_writes_after_reads evs reads :
  forallb (fun e => negb (is_register_write e)) reads = true ->
  register_writes (evs ++ reads) = register_writes evs.
Proof.
  intros H. unfold register_writes. rewrite filter_app.
  assert (Hnil : filter is_register_write reads = []).
  { induction reads as [| e reads IH]; [reflexivity |].
    cbn in H. apply andb_true_iff in H. destruct H as [He Hrest].
    cbn. destruct (is_register_write e); [discriminate |]. apply IH, Hrest. }
  rewrite Hnil. apply app_nil_r.
Qed.


(** X13. [load_calibration] yields no profile on any host: with the file
    missing, short, long or of the expected size the call ends in an
    exception, and registers, buffer and trace are exactly as before,
    whatever path it is handed. *)
Theorem load_calibration_yields_nothing :
  forall CAL_DATA_PATH (fs : filesystem) fpath st,
  (forall data,
      fst (BNO055.load_calibration CAL_DATA_PATH fs fpath st) <> Ok data) /\
  snd (BNO055.load_calibration CAL_DATA_PATH fs fpath st) = st.
Proof.
  intros path fs fpath st.
  destruct (fs (path ++ CAL_DATA_NAME)%string) as [text |] eqn:E.
  - exact (load_calibration_never_returns path fs text E fpath st).
  - unfold BNO055.load_calibration. rewrite E. unfold raise. cbn [fst snd].
    split; [intros data; discriminate | reflexivity].
Qed.







(** X15. [save_calibration] saves nothing and destroys what was saved: on
    every chip state the call ends in an exception before any line is
    written, the calibration file is left empty, every other file is
    untouched, and no register is written. *)
Theorem save_calibration_empties_file :
  forall CAL_DATA_PATH (fs : filesystem) fpath st,
  (forall u,
      fst (fst (BNO055.save_calibration CAL_DATA_PATH fs fpath st)) <> Ok u) /\
  snd (BNO055.save_calibration CAL_DATA_PATH fs fpath st)
      (CAL_DATA_PATH ++ CAL_DATA_NAME)%string = Some EmptyString /\
  (forall p, p <> (CAL_DATA_PATH ++ CAL_DATA_NAME)%string ->
             snd (BNO055.save_calibration CAL_DATA_PATH fs fpath st) p = fs p) /\
  regs (snd (fst (BNO055.save_calibration CAL_DATA_PATH fs fpath st))) =
    regs st /\
  register_writes
    (trace (snd (fst (BNO055.save_calibration CAL_DATA_PATH fs fpath st)))) =
    register_writes (trace st).
Proof.
  intros path fs fpath st. unfold BNO055.save_calibration. cbn [fst snd].
  split; [| split; [| split]].
  - intros u. destruct (calibration_status_cases st) as [H | H].
    + erewrite bind_raise by (apply get_calibration_calibrated; exact H).
      discriminate.
    + erewrite bind_raise by (apply get_calibration_not_calibrated; exact H).
      discriminate.
  - unfold open_wb. rewrite String.eqb_refl. reflexivity.
  - intros p Hp. unfold open_wb. apply String.eqb_neq in Hp. rewrite Hp.
    reflexivity.
  - destruct (calibration_status_cases st) as [H | H].
    + erewrite bind_raise by (apply get_calibration_calibrated; exact H).
      cbn [snd regs trace]. split; [reflexivity |].
      apply register_writes_after_reads. reflexivity.
    + erewrite bind_raise by (apply get_calibration_not_calibrated; exact H).
      rewrite calibration_status_eq. cbn [snd regs trace].
      split; [reflexivity |]. apply register_writes_after_reads. reflexivity.
Qed.

(** ** Measurement accessors, continued *)

(** X16. Reading a measurement never writes.  On every state each of the
    eight three-field accessors (the two deprecated names included) succeeds
    with three values after one block read of six bytes at its base address,
    [quaternion] with four values after one block read of eight bytes, and
    registers and scratch buffer are left as they were. *)
Theorem measurement_reads_do_not_write :
  forall (F : Type) (float_ops : FloatOps F) st,
  Forall (fun d : descriptor F =>
            exists values,
              fst (__get__ d st) = Ok (Tuple values) /\
              List.length values = 3%nat /\
              regs (snd (__get__ d st)) = regs st /\
              buffer (snd (__get__ d st)) = buffer st /\
              trace (snd (__get__ d st)) =
                trace st ++ [BusReadBlock (descriptor_address d) 6])
    [BNO055.accelerometer; BNO055.acceleration; BNO055.magnetometer;
     BNO055.magnetic; BNO055.gyroscope; BNO055.euler;
     BNO055.linear_acceleration; BNO055.gravity] /\
  exists values,
    fst (__get__ (BNO055.quaternion (F := F)) st) = Ok (Tuple values) /\
    List.length values = 4%nat /\
    regs (snd (__get__ (BNO055.quaternion (F := F)) st)) = regs st /\
    buffer (snd (__get__ (BNO055.quaternion (F := F)) st)) = buffer st /\
    trace (snd (__get__ (BNO055.quaternion (F := F)) st)) =
      trace st ++ [BusReadBlock 0x20 8].
Proof.
  intros F float_ops st. split.
  - repeat (apply Forall_cons;
            [eexists; cbn; repeat split; reflexivity |]).
    apply Forall_nil.
  - eexists. cbn. repeat split; reflexivity.
Qed.

(** X17. With register 0x34 holding a byte, [temperature] reads it as a
    signed byte: the value lies in -128..127 and is congruent to the byte
    modulo 256. *)
Theorem temperature_is_signed_byte :
  forall (F : Type) (float_ops : FloatOps F) st,
  0 <= regs st 0x34 < 256 ->
  exists t,
    fst (__get__ (BNO055.temperature (F := F)) st) = Ok (Scalar t) /\
    -128 <= t <= 127 /\
    (t - regs st 0x34) mod 256 = 0.
Proof.
  intros F float_ops st Hb. rewrite temperature_get. cbn [fst].
  eexists. split; [reflexivity |]. unfold signed.
  change (2 ^ (8 - 1)) with 128. change (2 ^ 8) with 256.
  destruct (Z.ltb_spec (regs st 0x34) 128) as [Hlt | Hge].
  - split; [lia |]. rewrite Z.sub_diag. reflexivity.
  - split; [lia |].
    replace (regs st 0x34 - 256 - regs st 0x34) with (-256) by lia.
    reflexivity.
Qed.

Lemma temperature_is_signed_byte_witness :
  0 <= 0xf6 < 256 /\
  exists t,
    fst (__get__ (float_ops := Build_FloatOps unit (fun _ _ => tt)
                                              (fun _ _ => tt))
           BNO055.temperature
           (mkState (fun r => if r =? 0x34 then 0xf6 else 0) (0, 0) [])) =
      Ok (Scalar t) /\
    -128 <= t <= 127 /\
    (t - 0xf6) mod 256 = 0.
Proof.
  assert (H : 0 <= 0xf6 < 256) by lia.
  split; [exact H |].
  exact (temperature_is_signed_byte unit
           (Build_FloatOps unit (fun _ _ => tt) (fun _ _ => tt))
           (mkState (fun r => if r =? 0x34 then 0xf6 else 0) (0, 0) []) H).
Defined.
